(** * microsih: the microplastics demo page ([jss.js])

    A shallow embedding of the page script: the detection simulator
    [fakeDetection], the in-memory history [allImages], the chart
    projection [updateCharts], the history-table and card renderers and
    the two exports [downloadCSV] and [printReport].

    JavaScript numbers are IEEE-754 binary64 values.  They are modelled
    as the rationals they denote ([Q]), and every arithmetic operation
    of the script rounds its exact result to the nearest binary64 value,
    ties to even ([Float.fl]).  Integer-valued numbers that the script
    only stores, compares and adds (the particle counts) are modelled as
    [Z].  Strings are modelled by [string], one character per UTF-16
    code unit below 256. *)

From Stdlib Require Import ZArith QArith Qround Qpower List String Ascii Bool.
From Stdlib Require Import Lia Lqa DecimalString Permutation.
Import ListNotations.

(** ** Binary64 arithmetic *)

Module Float.
Local Open Scope Q_scope.

Definition pow2 (e : Z) : Q := 2 ^ e.

(** [ilog2 x] is the binary exponent of a positive [x]:
    [2^(ilog2 x) <= x < 2^(ilog2 x + 1)]. *)
Definition ilog2 (x : Q) : Z :=
  let k := (Z.log2 (Qnum x) - Z.log2 (Zpos (Qden x)))%Z in
  if Qle_bool (pow2 k) x then k else (k - 1)%Z.

(** Round to the nearest integer, ties to the even one. *)
Definition rne (x : Q) : Z :=
  let f := Qfloor x in
  match Qcompare (x - inject_Z f) (1 # 2) with
  | Lt => f
  | Gt => (f + 1)%Z
  | Eq => if Z.even f then f else (f + 1)%Z
  end.

(** Exponent of the unit in the last place of the binary64 format at
    [x > 0]: 53 significant bits, and the subnormal range below
    [2^-1022]. *)
Definition ulp_exp (x : Q) : Z := (Z.max (ilog2 x) (-1022) - 52)%Z.

Definition fl_pos (x : Q) : Q :=
  let e := ulp_exp x in inject_Z (rne (x / pow2 e)) * pow2 e.

(** Rounding of an exact result to binary64 (round to nearest, ties to
    even).  Overflow to infinity (magnitudes from [2^1024]) is outside
    the model: every operand of the script is below [2^7]. *)
Definition fl (x : Q) : Q :=
  match Qcompare x 0 with
  | Eq => 0
  | Gt => fl_pos x
  | Lt => - fl_pos (- x)
  end.

(** A rational is a binary64 value when rounding leaves it alone. *)
Definition is_double (x : Q) : Prop := fl x == x.

Definition fadd (x y : Q) : Q := fl (x + y).
Definition fmul (x y : Q) : Q := fl (x * y).

End Float.

(** ** JavaScript values and built-ins used by the script *)

Module JS.
Import Float.
Local Open Scope string_scope.

(** The double quote and the line feed, spliced into literals. *)
Definition dq : string := String "034"%char EmptyString.
Definition nl : string := String "010"%char EmptyString.

(** Values that end up in text: [undefined], a string, or an integral
    number. *)
Inductive value : Type :=
  | Undefined
  | Str (s : string)
  | Num (n : Z).

(** Numbers that may be [NaN] (results of [Number(...)]). *)
Inductive number : Type :=
  | NaN
  | Fin (q : Q).

(** Result of [Math.max(...xs)] on integral arguments: [-Infinity] for
    no argument. *)
Inductive maximum : Type :=
  | NegInfinity
  | Max (z : Z).

(** [String(v)] and template-literal interpolation. *)
Definition String_ (v : value) : string :=
  match v with
  | Undefined => "undefined"
  | Str s => s
  | Num n => NilZero.string_of_int (Z.to_int n)
  end.

(** [a[i]]: an own element, or [undefined] (also for [i = -1]). *)
Definition index {A : Type} (a : list A) (i : Z) : option A :=
  if (i <? 0)%Z then None else nth_error a (Z.to_nat i).

Definition at_ (a : list string) (i : Z) : value :=
  match index a i with
  | Some s => Str s
  | None => Undefined
  end.

(** [v || d] on a string-or-undefined value: [undefined] and the empty
    string are falsy. *)
Definition or_else (v : value) (d : string) : value :=
  match v with
  | Undefined => Str d
  | Str s => if (s =? "")%string then Str d else v
  | Num n => if (n =? 0)%Z then Str d else v
  end.

Definition Math_floor (x : Q) : Z := Qfloor x.

Definition Math_max (xs : list Z) : maximum :=
  fold_left (fun acc x =>
               match acc with
               | NegInfinity => Max x
               | Max a => Max (Z.max a x)
               end) xs NegInfinity.

Definition strict_eq (x : Z) (m : maximum) : bool :=
  match m with
  | NegInfinity => false
  | Max z => (x =? z)%Z
  end.

Fixpoint indexOf_from (xs : list Z) (m : maximum) (i : Z) : Z :=
  match xs with
  | [] => (-1)%Z
  | x :: rest => if strict_eq x m then i else indexOf_from rest m (i + 1)%Z
  end.

(** [xs.indexOf(m)]: the first index holding [m], or [-1]. *)
Definition indexOf (xs : list Z) (m : maximum) : Z := indexOf_from xs m 0.

(** [a[0] = v]. *)
Definition set_first {A : Type} (a : list A) (v : A) : list A :=
  match a with
  | [] => [v]
  | _ :: rest => v :: rest
  end.

(** [xs.join(sep)] on numbers. *)
Definition join_nums (sep : string) (xs : list Z) : string :=
  String.concat sep (map (fun n => String_ (Num n)) xs).

(** The global [replace] of the CSV export: every double quote is
    doubled. *)
Fixpoint double_quotes (s : string) : string :=
  match s with
  | EmptyString => EmptyString
  | String c rest =>
      if Ascii.eqb c "034"%char
      then String c (String c (double_quotes rest))
      else String c (double_quotes rest)
  end.

Fixpoint zeros (n : nat) : string :=
  match n with
  | O => ""
  | S k => String "0"%char (zeros k)
  end.

(** The digits of [n] with a decimal point before the last [f] of them,
    padded with leading zeros up to [f + 1] digits. *)
Definition fixed_layout (n : Z) (f : nat) : string :=
  let m := NilZero.string_of_int (Z.to_int n) in
  match f with
  | O => m
  | _ =>
      let m := if (String.length m <=? f)%nat
               then zeros (f + 1 - String.length m) ++ m else m in
      let k := String.length m in
      substring 0 (k - f) m ++ "." ++ substring (k - f) f m
  end.

(** [x.toFixed(f)] (ECMA-262 Number.prototype.toFixed) for
    [|x| < 10^21]; from [10^21] on, the standard defers to [ToString],
    which is outside the model. *)
Definition toFixed (x : Q) (f : nat) : string :=
  let s := if Qle_bool 0 x then "" else "-" in
  let x := if Qle_bool 0 x then x else (- x)%Q in
  (* the integer n with n / 10^f - x closest to zero, the larger on a tie *)
  let n := Qfloor (x * inject_Z (10 ^ Z.of_nat f) + (1 # 2))%Q in
  s ++ fixed_layout n f.

Definition digit_of (c : ascii) : option Z :=
  let n := nat_of_ascii c in
  if ((48 <=? n) && (n <=? 57))%nat then Some (Z.of_nat (n - 48)) else None.

(** Longest prefix of decimal digits: their value (continuing [acc]),
    how many there are, and the rest of the string. *)
Fixpoint span_digits (s : string) (acc : Z) (len : nat) : Z * nat * string :=
  match s with
  | EmptyString => (acc, len, s)
  | String c rest =>
      match digit_of c with
      | Some d => span_digits rest (10 * acc + d)%Z (S len)
      | None => (acc, len, s)
      end
  end.

(** [Number(s)] on plain decimal literals: digits with an optional
    fraction and an optional sign; the empty string is [0].  Exponent
    parts, radix prefixes, [Infinity] and surrounding white space are not
    modelled and answer [NaN] here. *)
Definition Number_unsigned (s : string) : number :=
  let '(ip, il, rest) := span_digits s 0 0 in
  match rest with
  | EmptyString => if (il =? 0)%nat then NaN else Fin (fl (inject_Z ip))
  | String c rest' =>
      if Ascii.eqb c "."%char then
        let '(m, l, rest'') := span_digits rest' ip il in
        match rest'' with
        | EmptyString =>
            if (l =? 0)%nat then NaN
            else Fin (fl (inject_Z m / inject_Z (10 ^ Z.of_nat (l - il))))
        | _ => NaN
        end
      else NaN
  end.

Definition Number (s : string) : number :=
  match s with
  | EmptyString => Fin 0
  | String c rest =>
      if Ascii.eqb c "-"%char then
        match Number_unsigned rest with Fin q => Fin (- q) | NaN => NaN end
      else if Ascii.eqb c "+"%char then Number_unsigned rest
      else Number_unsigned s
  end.

End JS.

(** ** The page: data, state and handlers *)

Module Page.
Import Float JS.
Local Open Scope string_scope.

Definition TYPES : list string := ["Fiber"; "Fragment"; "Pellet"; "Microbead"].
Definition COLORS : list string := ["#3b82f6"; "#f97316"; "#22c55e"; "#a855f7"].

(** The micro sign U+00B5 is one code unit. *)
Definition micro : string := String "181"%char EmptyString.
Definition SIZE_BUCKETS : list string :=
  ["<10 " ++ micro ++ "m"; "10-50 " ++ micro ++ "m";
   "50-100 " ++ micro ++ "m"; ">100 " ++ micro ++ "m"].

(** Result of [fakeDetection]: the object [{ counts, size, accuracy }].
    Record fields share one name space here, hence the prefix. *)
Record detection : Type := {
  det_counts : list Z;
  det_size : value;
  det_accuracy : string
}.

(** An item of [allImages].  The field [shortName] is written
    [shortName_], the plain name being the function's. *)
Record imgObj : Type := {
  name : string;
  shortName_ : string;
  counts : list Z;
  size : value;
  accuracy : string
}.

Record dataset (A : Type) : Type := {
  label : string;
  data : list A;
  backgroundColor : value
}.
Arguments label {A}.
Arguments data {A}.
Arguments backgroundColor {A}.

(** The [data] object of the composition chart (display options play no
    role). *)
Record chart : Type := {
  labels : list string;
  datasets : list (dataset value)
}.

(** The [data] object of the accuracy chart; [line] is [datasets[0]],
    the one dataset the chart is created with. *)
Record line_chart : Type := {
  line_labels : list string;
  line : dataset number
}.

(** A created element, by the markup assigned to it. *)
Record element : Type := {
  tagName : string;
  className : string;
  innerHTML : string
}.

Record download : Type := {
  fileName : string;
  mimeType : string;
  content : string
}.

(** A window opened by [window.open]: what was written to its document
    and how often [print] was called on it. *)
Record popup : Type := {
  features : string;
  document : list string;
  prints : nat
}.

(** Callbacks handed to [setTimeout]. *)
Inductive task : Type :=
  | UpdateCharts
  | PrintWindow (w : nat).

Record timer : Type := {
  callback : task;
  delay : Z
}.

(** The state the script reads and writes: its own globals, the parts of
    the document it touches, the effects it has had on the browser, the
    pending timers, and the stream behind [Math.random]. *)
Record page : Type := {
  allImages : list imgObj;
  imageGrid : list element;
  historyTableBody : list element;
  compositionChart : chart;
  accuracyChart : line_chart;
  alerts : list string;
  downloads : list download;
  windows : list popup;
  timers : list timer;
  random : nat -> Q;
  drawn : nat
}.

Definition with_allImages (v : list imgObj) (p : page) : page :=
  {| allImages := v; imageGrid := imageGrid p;
     historyTableBody := historyTableBody p;
     compositionChart := compositionChart p; accuracyChart := accuracyChart p;
     alerts := alerts p; downloads := downloads p; windows := windows p;
     timers := timers p; random := random p; drawn := drawn p |}.

Definition with_imageGrid (v : list element) (p : page) : page :=
  {| allImages := allImages p; imageGrid := v;
     historyTableBody := historyTableBody p;
     compositionChart := compositionChart p; accuracyChart := accuracyChart p;
     alerts := alerts p; downloads := downloads p; windows := windows p;
     timers := timers p; random := random p; drawn := drawn p |}.

Definition with_historyTableBody (v : list element) (p : page) : page :=
  {| allImages := allImages p; imageGrid := imageGrid p;
     historyTableBody := v;
     compositionChart := compositionChart p; accuracyChart := accuracyChart p;
     alerts := alerts p; downloads := downloads p; windows := windows p;
     timers := timers p; random := random p; drawn := drawn p |}.

Definition with_compositionChart (v : chart) (p : page) : page :=
  {| allImages := allImages p; imageGrid := imageGrid p;
     historyTableBody := historyTableBody p;
     compositionChart := v; accuracyChart := accuracyChart p;
     alerts := alerts p; downloads := downloads p; windows := windows p;
     timers := timers p; random := random p; drawn := drawn p |}.

Definition with_accuracyChart (v : line_chart) (p : page) : page :=
  {| allImages := allImages p; imageGrid := imageGrid p;
     historyTableBody := historyTableBody p;
     compositionChart := compositionChart p; accuracyChart := v;
     alerts := alerts p; downloads := downloads p; windows := windows p;
     timers := timers p; random := random p; drawn := drawn p |}.

Definition with_alerts (v : list string) (p : page) : page :=
  {| allImages := allImages p; imageGrid := imageGrid p;
     historyTableBody := historyTableBody p;
     compositionChart := compositionChart p; accuracyChart := accuracyChart p;
     alerts := v; downloads := downloads p; windows := windows p;
     timers := timers p; random := random p; drawn := drawn p |}.

Definition with_downloads (v : list download) (p : page) : page :=
  {| allImages := allImages p; imageGrid := imageGrid p;
     historyTableBody := historyTableBody p;
     compositionChart := compositionChart p; accuracyChart := accuracyChart p;
     alerts := alerts p; downloads := v; windows := windows p;
     timers := timers p; random := random p; drawn := drawn p |}.

Definition with_windows (v : list popup) (p : page) : page :=
  {| allImages := allImages p; imageGrid := imageGrid p;
     historyTableBody := historyTableBody p;
     compositionChart := compositionChart p; accuracyChart := accuracyChart p;
     alerts := alerts p; downloads := downloads p; windows := v;
     timers := timers p; random := random p; drawn := drawn p |}.

Definition with_timers (v : list timer) (p : page) : page :=
  {| allImages := allImages p; imageGrid := imageGrid p;
     historyTableBody := historyTableBody p;
     compositionChart := compositionChart p; accuracyChart := accuracyChart p;
     alerts := alerts p; downloads := downloads p; windows := windows p;
     timers := v; random := random p; drawn := drawn p |}.

Definition with_drawn (v : nat) (p : page) : page :=
  {| allImages := allImages p; imageGrid := imageGrid p;
     historyTableBody := historyTableBody p;
     compositionChart := compositionChart p; accuracyChart := accuracyChart p;
     alerts := alerts p; downloads := downloads p; windows := windows p;
     timers := timers p; random := random p; drawn := v |}.

(** *** Statements of the script, as state transformers *)

Definition M (A : Type) : Type := page -> A * page.

Definition ret {A : Type} (a : A) : M A := fun p => (a, p).

Definition bind {A B : Type} (m : M A) (k : A -> M B) : M B :=
  fun p => let (a, p') := m p in k a p'.

Notation "x <- m ;; k" := (bind m (fun x => k))
  (at level 61, m at next level, right associativity).
Notation "m ;; k" := (bind m (fun _ => k))
  (at level 61, right associativity).

Definition exec {A : Type} (m : M A) (p : page) : page := snd (m p).
Definition eval {A : Type} (m : M A) (p : page) : A := fst (m p).

(** [Math.random()]: the next value of the stream. *)
Definition Math_random : M Q :=
  fun p => (random p (drawn p), with_drawn (S (drawn p)) p).

(** [Array.from({length: n}, f)]: [f] is called [n] times, in index
    order. *)
Fixpoint Array_from {A : Type} (n : nat) (f : M A) : M (list A) :=
  match n with
  | O => ret []
  | S k => x <- f ;; xs <- Array_from k f ;; ret (x :: xs)
  end.

Definition get_allImages : M (list imgObj) := fun p => (allImages p, p).

(** [imageGrid.prepend(card)]. *)
Definition imageGrid_prepend (card : element) : M unit :=
  fun p => (tt, with_imageGrid (card :: imageGrid p) p).

(** [historyTableBody.appendChild(tr)]. *)
Definition historyTableBody_appendChild (tr : element) : M unit :=
  fun p => (tt, with_historyTableBody (historyTableBody p ++ [tr]) p).

(** [allImages.push(imgObj)]. *)
Definition allImages_push (img : imgObj) : M unit :=
  fun p => (tt, with_allImages (allImages p ++ [img]) p).

Definition alert (msg : string) : M unit :=
  fun p => (tt, with_alerts (alerts p ++ [msg]) p).

Definition setTimeout (t : task) (ms : Z) : M unit :=
  fun p => (tt, with_timers (timers p ++ [{| callback := t; delay := ms |}]) p).

(** [window.open("", "_blank", features)]: the new window's handle, or
    [null] when the browser refuses. *)
Definition window_open (allowed : bool) (feat : string) : M (option nat) :=
  fun p =>
    if allowed
    then (Some (List.length (windows p)),
          with_windows
            (windows p ++ [{| features := feat; document := []; prints := 0 |}]) p)
    else (None, p).

Fixpoint update_nth {A : Type} (n : nat) (f : A -> A) (l : list A) : list A :=
  match l, n with
  | [], _ => []
  | x :: rest, O => f x :: rest
  | x :: rest, S k => x :: update_nth k f rest
  end.

(** [w.document.open(); w.document.write(html); w.document.close()]. *)
Definition document_write (w : nat) (html : string) : M unit :=
  fun p =>
    (tt, with_windows
           (update_nth w (fun win => {| features := features win;
                                        document := [html];
                                        prints := prints win |}) (windows p)) p).

Definition window_print (w : nat) : M unit :=
  fun p =>
    (tt, with_windows
           (update_nth w (fun win => {| features := features win;
                                        document := document win;
                                        prints := S (prints win) |}) (windows p)) p).

(** *** [shortName] *)

Definition shortName (name : string) : string :=
  if (18 <? String.length name)%nat
  then substring 0 15 name ++ "..."
  else name.

(** The dominant-type expression shared by the renderers:
    [counts.indexOf(Math.max(...counts))]. *)
Definition domTypeIndex (counts : list Z) : Z := indexOf counts (Math_max counts).

(** *** [updateCharts] *)

(** [a.forEach((x, i) => ...)] replacing each element, indices from [i]. *)
Fixpoint mapi_from {A B : Type} (i : Z) (f : A -> Z -> B) (a : list A) : list B :=
  match a with
  | [] => []
  | x :: rest => f x i :: mapi_from (i + 1)%Z f rest
  end.

Definition count_at (img : imgObj) (typeIndex : Z) : value :=
  match index (counts img) typeIndex with
  | Some c => Num c
  | None => Undefined
  end.

Definition updateCharts : M unit :=
  fun p =>
    let labels := map shortName_ (allImages p) in
    let comp :=
      {| labels := labels;
         datasets :=
           mapi_from 0 (fun ds typeIndex =>
                          {| label := label ds;
                             data := map (fun img => count_at img typeIndex) (allImages p);
                             backgroundColor := backgroundColor ds |})
                     (datasets (compositionChart p)) |} in
    let acc :=
      {| line_labels := labels;
         line :=
           {| label := label (line (accuracyChart p));
              data := map (fun img => Number (accuracy img)) (allImages p);
              backgroundColor := backgroundColor (line (accuracyChart p)) |} |} in
    (tt, with_accuracyChart acc (with_compositionChart comp p)).

(** *** [addHistoryRow] *)

Definition historyRowDomType (imgObj : imgObj) : value :=
  let domTypeIndex := domTypeIndex (counts imgObj) in
  or_else (at_ TYPES domTypeIndex) "Unknown".

Definition historyRowHTML (imgObj : imgObj) : string :=
  let domType := historyRowDomType imgObj in
  nl ++ "    <td>" ++ name imgObj ++ "</td>" ++
  nl ++ "    <td>" ++ String_ domType ++ "</td>" ++
  nl ++ "    <td>" ++ String_ (size imgObj) ++ "</td>" ++
  nl ++ "    <td>" ++ accuracy imgObj ++ "%</td>" ++
  nl ++ "  ".

Definition addHistoryRow (imgObj : imgObj) : M unit :=
  let tr := {| tagName := "tr"; className := "";
               innerHTML := historyRowHTML imgObj |} in
  historyTableBody_appendChild tr.

(** *** [fakeDetection] *)

Definition fakeDetection (fileName : string) : M detection :=
  counts <- Array_from (List.length TYPES)
              (r <- Math_random ;; ret (Math_floor (fmul r 6))) ;;
  let counts :=
    if (fold_left Z.add counts 0 =? 0)%Z then set_first counts 1%Z else counts in
  r <- Math_random ;;
  let size :=
    at_ SIZE_BUCKETS
        (Math_floor (fmul r (inject_Z (Z.of_nat (List.length SIZE_BUCKETS))))) in
  r <- Math_random ;;
  let accuracy := toFixed (fadd 70 (fmul r 29)) 1 in
  ret {| det_counts := counts; det_size := size; det_accuracy := accuracy |}.

(** *** The [onload] callback of the upload handler

    [file_name] is the selected file's name and [result] the data URL
    its content was read to. *)

Definition cardDomType (counts : list Z) : value := at_ TYPES (domTypeIndex counts).

Definition cardHTML (src short : string) (counts : list Z) (size : value)
    (accuracy : string) : string :=
  nl ++ "        <img src=" ++ dq ++ src ++ dq ++ " alt=" ++ dq ++ short ++ dq ++ " />" ++
  nl ++ "        <h3>" ++ short ++ "</h3>" ++
  nl ++ "        <p class=" ++ dq ++ "result" ++ dq ++ ">Dominant Type: <strong>" ++
        String_ (cardDomType counts) ++ "</strong></p>" ++
  nl ++ "        <p class=" ++ dq ++ "result" ++ dq ++ ">Size: <em>" ++
        String_ size ++ "</em></p>" ++
  nl ++ "        <p class=" ++ dq ++ "result accuracy" ++ dq ++ ">" ++ accuracy ++ "%</p>" ++
  nl ++ "        <p class=" ++ dq ++ "result" ++ dq ++ " style=" ++ dq ++
        "font-size:12px;color:#6b7280;margin-top:6px" ++ dq ++ ">Counts: " ++
        join_nums ", " counts ++ "</p>" ++
  nl ++ "      ".

Definition reader_onload (file_name result : string) : M unit :=
  det <- fakeDetection file_name ;;
  let short := shortName file_name in
  let card :=
    {| tagName := "div"; className := "card";
       innerHTML := cardHTML result short (det_counts det) (det_size det)
                             (det_accuracy det) |} in
  imageGrid_prepend card ;;
  let imgObj :=
    {| name := file_name; shortName_ := short; counts := det_counts det;
       size := det_size det; accuracy := det_accuracy det |} in
  allImages_push imgObj ;;
  addHistoryRow imgObj ;;
  setTimeout UpdateCharts 100.

(** *** [downloadCSV] *)

Definition csvHeader : list value :=
  ([Str "Image"; Str "DominantType"; Str "Size"; Str "Accuracy"] ++ map Str TYPES)%list.

Definition csvDomType (img : imgObj) : value :=
  at_ TYPES (domTypeIndex (counts img)).

Definition csvRow (img : imgObj) : list value :=
  let domType := csvDomType img in
  ([Str (name img); domType; size img; Str (accuracy img ++ "%")]
     ++ map Num (counts img))%list.

Definition csvField (c : value) : string := dq ++ double_quotes (String_ c) ++ dq.

Definition csvLine (r : list value) : string := String.concat "," (map csvField r).

Definition csvContent (images : list imgObj) : string :=
  let rows := ([csvHeader] ++ map csvRow images)%list in
  String.concat nl (map csvLine rows).

(** The temporary link is created, clicked and removed within the call;
    what remains is the download it triggered. *)
Definition downloadCSV : M unit :=
  fun p =>
    if (List.length (allImages p) =? 0)%nat then
      alert "No history to download." p
    else
      (tt, with_downloads
             (downloads p ++
                [{| fileName := "microplastics_history.csv";
                    mimeType := "text/csv;charset=utf-8;";
                    content := csvContent (allImages p) |}])%list p).

(** *** [printReport] *)

Definition printStyle : string :=
  nl ++ "    <style>" ++
  nl ++ "      body{ font-family: Arial, sans-serif; padding:20px; color: #111 }" ++
  nl ++ "      h1{ font-size:18px; margin-bottom:8px }" ++
  nl ++ "      table{ width:100%; border-collapse:collapse; margin-top:12px }" ++
  nl ++ "      th,td{ border:1px solid #ccc; padding:8px; text-align:center }" ++
  nl ++ "      th{ background:#3b82f6; color:#fff }" ++
  nl ++ "    </style>".

Definition printDomType (img : imgObj) : value :=
  at_ TYPES (domTypeIndex (counts img)).

Definition printRow (img : imgObj) : string :=
  let domType := printDomType img in
  "<tr>" ++
  nl ++ "      <td>" ++ name img ++ "</td>" ++
  nl ++ "      <td>" ++ String_ domType ++ "</td>" ++
  nl ++ "      <td>" ++ String_ (size img) ++ "</td>" ++
  nl ++ "      <td>" ++ accuracy img ++ "%</td>" ++
  nl ++ "    </tr>".

Definition printRows (images : list imgObj) : string :=
  fold_left (fun rowsHtml img => rowsHtml ++ printRow img) images "".

Definition printHTML (now : string) (images : list imgObj) : string :=
  nl ++ "    <!doctype html>" ++
  nl ++ "    <html>" ++
  nl ++ "      <head><meta charset=" ++ dq ++ "utf-8" ++ dq ++ ">" ++ printStyle ++ "</head>" ++
  nl ++ "      <body>" ++
  nl ++ "        <h1>Microplastic Detection Report</h1>" ++
  nl ++ "        <p>Generated: " ++ now ++ "</p>" ++
  nl ++ "        <table>" ++
  nl ++ "          <thead>" ++
  nl ++ "            <tr><th>Image</th><th>Dominant Type</th><th>Size</th><th>Accuracy</th></tr>" ++
  nl ++ "          </thead>" ++
  nl ++ "          <tbody>" ++ printRows images ++ "</tbody>" ++
  nl ++ "        </table>" ++
  nl ++ "      </body>" ++
  nl ++ "    </html>" ++
  nl ++ "  ".

(** [allowed] is whether the browser lets [window.open] succeed, [now]
    the text of [new Date().toLocaleString()]. *)
Definition printReport (allowed : bool) (now : string) : M unit :=
  fun p =>
    if (List.length (allImages p) =? 0)%nat then
      alert "No history to print." p
    else
      (printWindow <- window_open allowed "width=900,height=700" ;;
       match printWindow with
       | None => alert "Popup blocked. Allow popups and try again."
       | Some w =>
           images <- get_allImages ;;
           document_write w (printHTML now images) ;;
           setTimeout (PrintWindow w) 400
       end) p.

(** *** Events *)

(** What can happen to the page: a selected file finishes loading (the
    change handler of the file input only starts one read per file, whose
    completion is this event), one of the two buttons is clicked, or a
    pending timer fires, in any order the browser's clock allows. *)
Inductive event : Type :=
  | Load (file_name result : string)
  | ClickDownloadCsv
  | ClickPrintReport (allowed : bool) (now : string)
  | Fire (i : nat).

Fixpoint remove_nth {A : Type} (n : nat) (l : list A) : list A :=
  match l, n with
  | [], _ => []
  | _ :: rest, O => rest
  | x :: rest, S k => x :: remove_nth k rest
  end.

Definition run_task (t : task) : M unit :=
  match t with
  | UpdateCharts => updateCharts
  | PrintWindow w => window_print w
  end.

Definition fire (i : nat) : M unit :=
  fun p =>
    match nth_error (timers p) i with
    | None => (tt, p)
    | Some t => run_task (callback t) (with_timers (remove_nth i (timers p)) p)
    end.

Definition handle (e : event) : M unit :=
  match e with
  | Load file_name result => reader_onload file_name result
  | ClickDownloadCsv => downloadCSV
  | ClickPrintReport allowed now => printReport allowed now
  | Fire i => fire i
  end.

Definition run (es : list event) (p : page) : page :=
  fold_left (fun p e => exec (handle e) p) es p.

(** The page once the script has been loaded, over a given random
    stream.  The card grid and the table body start without children. *)
Definition init (rnd : nat -> Q) : page :=
  {| allImages := [];
     imageGrid := [];
     historyTableBody := [];
     compositionChart :=
       {| labels := [];
          datasets := mapi_from 0 (fun t i => {| label := t; data := [];
                                                 backgroundColor := at_ COLORS i |})
                                TYPES |};
     accuracyChart :=
       {| line_labels := [];
          line := {| label := "Accuracy (%)"; data := [];
                     backgroundColor := Str "rgba(239,68,68,0.08)" |} |};
     alerts := [];
     downloads := [];
     windows := [];
     timers := [];
     random := rnd;
     drawn := 0 |}.

End Page.

(** ** Vocabulary for the properties *)

Module Spec.
Import Float JS Page.
Local Open Scope string_scope.

(** [Math.random] only ever returns binary64 values in [0, 1). *)
Definition valid_random (rnd : nat -> Q) : Prop :=
  forall i, is_double (rnd i) /\ (0 <= rnd i)%Q /\ (rnd i < 1)%Q.

(** The six draws one call of [fakeDetection] consumes. *)
Definition draw (p : page) (i : nat) : Q := random p (i + drawn p).

(** The four counts as drawn, before the all-zero adjustment. *)
Definition drawn_counts (p : page) : list Z :=
  map (fun i => Math_floor (fmul (draw p i) 6)) (seq 0 4).

Definition sum (xs : list Z) : Z := fold_right Z.add 0%Z xs.

Definition digit_char (d : Z) : ascii := ascii_of_nat (48 + Z.to_nat d).

(** The text of [n] tenths, for a three-digit [n]. *)
Definition tenths_text (n : Z) : string :=
  String (digit_char (n / 100))
    (String (digit_char (n / 10 mod 10))
       (String "."%char (String (digit_char (n mod 10)) EmptyString))).

(** The record the upload handler stores for a file and its detection. *)
Definition recordOf (file_name : string) (det : detection) : imgObj :=
  {| name := file_name; shortName_ := shortName file_name;
     counts := det_counts det; size := det_size det;
     accuracy := det_accuracy det |}.

(** The card and the table row that show a record. *)
Definition cardOf (src : string) (img : imgObj) : element :=
  {| tagName := "div"; className := "card";
     innerHTML := cardHTML src (shortName_ img) (counts img) (size img)
                           (accuracy img) |}.

Definition rowOf (img : imgObj) : element :=
  {| tagName := "tr"; className := ""; innerHTML := historyRowHTML img |}.

(** The files whose load completes during a run, in completion order,
    each with the data URL it was read to. *)
Definition loads (es : list event) : list (string * string) :=
  flat_map (fun e => match e with
                     | Load file_name result => [(file_name, result)]
                     | _ => []
                     end) es.

(** The labels and colours of the composition datasets, which no handler
    changes. *)
Definition skeleton (c : chart) : list (string * value) :=
  map (fun ds => (label ds, backgroundColor ds)) (datasets c).

(** The chart data as a function of the store alone. *)
Definition projection (store : list imgObj) : chart :=
  {| labels := map shortName_ store;
     datasets :=
       mapi_from 0 (fun t i => {| label := t;
                                  data := map (fun img => count_at img i) store;
                                  backgroundColor := at_ COLORS i |})
                 TYPES |}.

Definition line_projection (store : list imgObj) : line_chart :=
  {| line_labels := map shortName_ store;
     line := {| label := "Accuracy (%)";
                data := map (fun img => Number (accuracy img)) store;
                backgroundColor := Str "rgba(239,68,68,0.08)" |} |}.

(** Equality of numbers as represented (same numerator, same
    denominator). *)
Definition same_number (x y : number) : bool :=
  match x, y with
  | NaN, NaN => true
  | Fin a, Fin b => ((Qnum a =? Qnum b)%Z && (Qden a =? Qden b)%positive)%bool
  | _, _ => false
  end.

(** Number of line feeds in a text. *)
Fixpoint count_lf (s : string) : nat :=
  match s with
  | EmptyString => 0
  | String c rest => (if Ascii.eqb c "010"%char then 1 else 0) + count_lf rest
  end.

(** A CSV field as the export writes it: between double quotes, each
    embedded double quote doubled. *)
Definition quoted (f : string) : string := dq ++ double_quotes f ++ dq.

(** The texts of the eight cells of a record's CSV row. *)
Definition csvCells (img : imgObj) : list string :=
  ([name img; String_ (csvDomType img); String_ (size img);
    (accuracy img ++ "%")%string]
     ++ map (fun c => String_ (Num c)) (counts img))%list.

(** A record none of whose texts holds a line feed. *)
Definition single_line (img : imgObj) : Prop :=
  count_lf (name img) = 0%nat /\
  count_lf (String_ (size img)) = 0%nat /\
  count_lf (accuracy img) = 0%nat.

(** A record with all four counts zero, which the simulator never
    produces. *)
Definition zero_record : imgObj :=
  {| name := "a.png"; shortName_ := "a.png"; counts := [0; 0; 0; 0]%Z;
     size := at_ SIZE_BUCKETS 0; accuracy := "70.0" |}.

(** What a well-formed generated record looks like. *)
Definition generated (img : imgObj) : Prop :=
  List.length (counts img) = 4%nat /\
  Forall (fun c => 0 <= c <= 5)%Z (counts img) /\
  (1 <= sum (counts img))%Z /\
  exists n, (700 <= n <= 990)%Z /\ accuracy img = tenths_text n.

End Spec.

(** ** Reading the CSV text back *)

Module Csv.
Import JS.
Local Open Scope string_scope.

(** A reader for the format the export writes: lines separated by line
    feeds, fields separated by commas, every field between double quotes,
    a doubled double quote standing for one. *)
Inductive mode : Type :=
  | FieldStart
  | Quoted
  | QuoteSeen.

Record reader : Type := {
  at_mode : mode;
  field : string;
  row : list string;
  rows : list (list string)
}.

Definition step (st : reader) (c : ascii) : option reader :=
  match at_mode st with
  | FieldStart =>
      if Ascii.eqb c "034"%char
      then Some {| at_mode := Quoted; field := ""; row := row st; rows := rows st |}
      else None
  | Quoted =>
      if Ascii.eqb c "034"%char
      then Some {| at_mode := QuoteSeen; field := field st; row := row st;
                   rows := rows st |}
      else Some {| at_mode := Quoted; field := field st ++ String c "";
                   row := row st; rows := rows st |}
  | QuoteSeen =>
      if Ascii.eqb c "034"%char
      then Some {| at_mode := Quoted; field := field st ++ String c "";
                   row := row st; rows := rows st |}
      else if Ascii.eqb c ","%char
      then Some {| at_mode := FieldStart; field := "";
                   row := (row st ++ [field st])%list; rows := rows st |}
      else if Ascii.eqb c "010"%char
      then Some {| at_mode := FieldStart; field := ""; row := [];
                   rows := (rows st ++ [row st ++ [field st]])%list |}
      else None
  end.

Fixpoint steps (s : string) (st : reader) : option reader :=
  match s with
  | EmptyString => Some st
  | String c rest =>
      match step st c with
      | Some st' => steps rest st'
      | None => None
      end
  end.

Definition parse (s : string) : option (list (list string)) :=
  match steps s {| at_mode := FieldStart; field := ""; row := []; rows := [] |} with
  | Some st =>
      match at_mode st with
      | QuoteSeen => Some (rows st ++ [row st ++ [field st]])%list
      | _ => None
      end
  | None => None
  end.

End Csv.

(** ** The upload handler around the [onload] callback *)

Module Upload.
Import JS Page.
Local Open Scope string_scope.

(** A selected file: its name, and the data URL its read yields, if the
    read succeeds (a failed read fires no [load] event, and the script
    listens to nothing else). *)
Record file : Type := {
  file_name : string;
  file_url : option string
}.

(** The page together with the file input and the reads in flight. *)
Record browser : Type := {
  pg : page;
  input_files : list file;
  reading : list file
}.

(** The [change] listener of the file input. *)
Definition fileInput_change (b : browser) : browser :=
  let files := input_files b in
  if (List.length files =? 0)%nat then b
  else
    (* one FileReader per file, each started with readAsDataURL;
       then fileInput.value = "", which empties the selection *)
    {| pg := pg b; input_files := []; reading := (reading b ++ files)%list |}.

Inductive uevent : Type :=
  | Select (files : list file)
  | ReadEnd (i : nat)
  | DownloadCsv
  | PrintReport (allowed : bool) (now : string)
  | Timer (i : nat).

Definition on_page (f : page -> page) (b : browser) : browser :=
  {| pg := f (pg b); input_files := input_files b; reading := reading b |}.

Definition read_end (i : nat) (b : browser) : browser :=
  match nth_error (reading b) i with
  | None => b
  | Some f =>
      let b' := {| pg := pg b; input_files := input_files b;
                   reading := remove_nth i (reading b) |} in
      match file_url f with
      | Some url => on_page (exec (reader_onload (file_name f) url)) b'
      | None => b'
      end
  end.

Definition uhandle (e : uevent) (b : browser) : browser :=
  match e with
  | Select files =>
      fileInput_change {| pg := pg b; input_files := files; reading := reading b |}
  | ReadEnd i => read_end i b
  | DownloadCsv => on_page (exec downloadCSV) b
  | PrintReport allowed now => on_page (exec (printReport allowed now)) b
  | Timer i => on_page (exec (fire i)) b
  end.

Definition urun (es : list uevent) (b : browser) : browser :=
  fold_left (fun b e => uhandle e b) es b.

Definition start (rnd : nat -> Q) : browser :=
  {| pg := init rnd; input_files := []; reading := [] |}.

Definition readable (f : file) : bool :=
  match file_url f with Some _ => true | None => false end.

(** The files selected during a run, in selection order. *)
Definition selected (es : list uevent) : list file :=
  flat_map (fun e => match e with Select files => files | _ => [] end) es.

End Upload.

(** ** Tab navigation *)

Module Nav.
Import JS.
Local Open Scope string_scope.

(** What the navigation handler reads and writes of an element: its ID,
    whether it is a link inside the navigation bar, its [data-tab]
    attribute and its class list (an ordered set of tokens). *)
Record node : Type := {
  node_id : option string;
  in_nav : bool;
  data_tab : option string;
  classList : list string
}.

(** The elements of the document, in tree order. *)
Definition document : Type := list node.

Definition contains (tok : string) (n : node) : bool :=
  existsb (String.eqb tok) (classList n).

Definition with_classList (l : list string) (n : node) : node :=
  {| node_id := node_id n; in_nav := in_nav n; data_tab := data_tab n;
     classList := l |}.

(** [n.classList.remove(tok)] and [n.classList.add(tok)]. *)
Definition classList_remove (tok : string) (n : node) : node :=
  with_classList (filter (fun c => negb (String.eqb tok c)) (classList n)) n.

Definition classList_add (tok : string) (n : node) : node :=
  if contains tok n then n else with_classList (classList n ++ [tok])%list n.

Fixpoint find_index {A : Type} (f : A -> bool) (l : list A) : option nat :=
  match l with
  | [] => None
  | x :: rest => if f x then Some O else option_map S (find_index f rest)
  end.

(** [document.getElementById(key)]: the first element with that ID; an
    ID is never the empty string. *)
Definition getElementById (d : document) (key : string) : option nat :=
  if (key =? "")%string then None
  else find_index (fun n => match node_id n with
                            | Some i => (i =? key)%string
                            | None => false
                            end) d.

(** [link.getAttribute("data-tab")] passed on as an ID: [null] becomes
    the text null. *)
Definition tab_key (link : node) : string :=
  match data_tab link with
  | Some t => t
  | None => "null"
  end.

(** The document after the listener ran, and whether it ended in the
    TypeError of calling [classList] on [null]. *)
Record outcome : Type := {
  doc : document;
  thrown : bool
}.

(** The click listener of the link at position [k]. *)
Definition on_click (k : nat) (link : node) (d : document) : outcome :=
  let d1 := map (fun a => if in_nav a then classList_remove "active" a else a) d in
  let d2 := Page.update_nth k (classList_add "active") d1 in
  let tab := tab_key link in
  let d3 := map (fun sec => if contains "tab-content" sec
                            then classList_remove "active" sec else sec) d2 in
  match getElementById d3 tab with
  | None => {| doc := d3; thrown := true |}
  | Some t => {| doc := Page.update_nth t (classList_add "active") d3;
                 thrown := false |}
  end.

(** A click on the element at position [k]; only the links of the
    navigation bar have the listener. *)
Definition click (k : nat) (d : document) : outcome :=
  match nth_error d k with
  | Some link => if in_nav link then on_click k link d
                 else {| doc := d; thrown := false |}
  | None => {| doc := d; thrown := false |}
  end.

Definition active (n : node) : bool := contains "active" n.
Definition section (n : node) : bool := contains "tab-content" n.

(** What the listener of the link at [k], with target [t], does to the
    element at position [j]. *)
Definition settle (k : nat) (t : option nat) (j : nat) (n : node) : node :=
  let n1 := if in_nav n then classList_remove "active" n else n in
  let n2 := if (j =? k)%nat then classList_add "active" n1 else n1 in
  let n3 := if section n2 then classList_remove "active" n2 else n2 in
  match t with
  | Some t' => if (j =? t')%nat then classList_add "active" n3 else n3
  | None => n3
  end.

(** A page with two tabs, the first one showing. *)
Definition two_tabs : document :=
  [ {| node_id := None; in_nav := true; data_tab := Some "upload";
       classList := ["active"] |};
    {| node_id := None; in_nav := true; data_tab := Some "history";
       classList := [] |};
    {| node_id := Some "upload"; in_nav := false; data_tab := None;
       classList := ["tab-content"; "active"] |};
    {| node_id := Some "history"; in_nav := false; data_tab := None;
       classList := ["tab-content"] |} ].

(** The same page with a link whose tab does not exist. *)
Definition dangling_tab : document :=
  ({| node_id := None; in_nav := true; data_tab := Some "charts";
      classList := [] |} :: two_tabs)%list.

(** The class list without the token the listener moves around. *)
Definition other_classes (n : node) : list string :=
  filter (fun c => negb (String.eqb "active" c)) (classList n).

End Nav.

(** ** Vocabulary for the properties of runs *)

Module RunSpec.
Import JS Page.

(** The two button clicks. *)
Definition is_click (e : event) : bool :=
  match e with
  | ClickDownloadCsv | ClickPrintReport _ _ => true
  | _ => false
  end.

Definition is_chart_timer (t : timer) : bool :=
  match callback t with
  | UpdateCharts => true
  | PrintWindow _ => false
  end.

Definition is_print_timer (w : nat) (t : timer) : bool :=
  match callback t with
  | UpdateCharts => false
  | PrintWindow v => (v =? w)%nat
  end.

(** How many pending timers will call [print] on window [w]. *)
Definition pending_prints (w : nat) (ts : list timer) : nat :=
  List.length (filter (is_print_timer w) ts).

End RunSpec.

Module FloatFacts.
Import Float.
Local Open Scope Q_scope.

Lemma pow2_pos (e : Z) : 0 < pow2 e.
Proof. unfold pow2. apply Qpower_0_lt. reflexivity. Qed.

Lemma pow2_le (a b : Z) : (a <= b)%Z -> pow2 a <= pow2 b.
Proof. intros H. unfold pow2. apply Qpower_le_compat_l; [exact H | discriminate]. Qed.

Lemma pow2_lt (a b : Z) : (a < b)%Z -> pow2 a < pow2 b.
Proof. intros H. unfold pow2. apply Qpower_lt_compat_l; [exact H | reflexivity]. Qed.

Lemma pow2_add (a b : Z) : pow2 (a + b) == pow2 a * pow2 b.
Proof. unfold pow2. apply Qpower_plus. discriminate. Qed.

Lemma pow2_succ (a : Z) : pow2 (a + 1) == 2 * pow2 a.
Proof. rewrite pow2_add. unfold pow2 at 2. simpl. ring. Qed.

Lemma pow2_inj_Z (a : Z) : (0 <= a)%Z -> inject_Z (2 ^ a) == pow2 a.
Proof. intros H. unfold pow2. rewrite Zpower_Qpower by exact H. reflexivity. Qed.

Lemma ilog2_spec (x : Q) : 0 < x -> pow2 (ilog2 x) <= x /\ x < pow2 (ilog2 x + 1).
Proof.
  intros Hx. unfold ilog2.
  destruct x as [n d]. cbn [Qnum Qden].
  assert (Hn : (0 < n)%Z) by (unfold Qlt in Hx; cbn in Hx; lia).
  set (a := Z.log2 n). set (b := Z.log2 (Z.pos d)).
  assert (Ha : (0 <= a)%Z) by apply Z.log2_nonneg.
  assert (Hb : (0 <= b)%Z) by apply Z.log2_nonneg.
  destruct (Z.log2_spec n Hn) as [Ha1 Ha2]. fold a in Ha1, Ha2.
  destruct (Z.log2_spec (Z.pos d) (eq_refl : (0 < Z.pos d)%Z)) as [Hb1 Hb2].
  fold b in Hb1, Hb2.
  assert (Ea : pow2 (a - b) * pow2 b == inject_Z (2 ^ a)).
  { rewrite <- pow2_add, pow2_inj_Z by lia. replace (a - b + b)%Z with a by lia. reflexivity. }
  assert (Eb : inject_Z (2 ^ b) == pow2 b) by (apply pow2_inj_Z; lia).
  assert (Ex : (n # d) * inject_Z (Z.pos d) == inject_Z n).
  { unfold Qeq, Qmult, inject_Z. cbn. lia. }
  assert (Pb := pow2_pos b). assert (Pk := pow2_pos (a - b)).
  assert (Q1 : inject_Z (2 ^ a) <= inject_Z n) by (rewrite <- Zle_Qle; exact Ha1).
  assert (Q2 : inject_Z n < 2 * inject_Z (2 ^ a)).
  { replace 2 with (inject_Z 2) by reflexivity. rewrite <- inject_Z_mult, <- Zlt_Qlt.
    rewrite Z.pow_succ_r in Ha2 by lia. lia. }
  assert (Q3 : inject_Z (2 ^ b) <= inject_Z (Z.pos d)) by (rewrite <- Zle_Qle; exact Hb1).
  assert (Q4 : inject_Z (Z.pos d) < 2 * inject_Z (2 ^ b)).
  { replace 2 with (inject_Z 2) by reflexivity. rewrite <- inject_Z_mult, <- Zlt_Qlt.
    rewrite Z.pow_succ_r in Hb2 by lia. lia. }
  set (X := n # d) in *. set (D := inject_Z (Z.pos d)) in *.
  set (N := inject_Z n) in *. set (A := inject_Z (2 ^ a)) in *.
  set (B := pow2 b) in *. set (K := pow2 (a - b)) in *.
  rewrite Eb in Q3, Q4.
  destruct (Qle_bool K X) eqn:E.
  - apply Qle_bool_iff in E. split; [exact E|].
    rewrite pow2_succ. fold K.
    (* X * D = N < 2 A = 2 K B <= 2 K D *)
    apply Qnot_le_lt. intros C.
    assert (2 * K * D <= X * D) by (apply Qmult_le_compat_r; [exact C | lra]).
    assert (K * B <= K * D) by (rewrite !(Qmult_comm K); apply Qmult_le_compat_r; lra).
    lra.
  - assert (E' : X < K).
    { apply Qnot_le_lt. intros C. apply Qle_bool_iff in C. congruence. }
    replace (a - b - 1 + 1)%Z with (a - b)%Z by lia. fold K. split; [|exact E'].
    assert (Ek : 2 * pow2 (a - b - 1) == K).
    { rewrite <- pow2_succ. replace (a - b - 1 + 1)%Z with (a - b)%Z by lia. reflexivity. }
    set (K' := pow2 (a - b - 1)) in *.
    apply Qnot_lt_le. intros C.
    assert (D > 0) by lra.
    assert (X * D < K' * D) by (apply Qmult_lt_compat_r; assumption).
    assert (K' * D <= K' * (2 * B)).
    { rewrite !(Qmult_comm K'). apply Qmult_le_compat_r; [lra|].
      assert (0 < K') by apply pow2_pos. lra. }
    assert (K * B == 2 * K' * B) by (rewrite <- Ek; ring).
    lra.
Qed.

Lemma pow2_exp_lt (a b : Z) : pow2 a < pow2 b -> (a < b)%Z.
Proof. intros H. apply (Qpower_lt_compat_l_inv 2); [exact H | reflexivity]. Qed.

Lemma ilog2_unique (x : Q) (i : Z) :
  pow2 i <= x -> x < pow2 (i + 1) -> ilog2 x = i.
Proof.
  intros L U.
  assert (Hx : 0 < x) by (pose proof (pow2_pos i); lra).
  destruct (ilog2_spec x Hx) as [L' U'].
  assert ((ilog2 x < i + 1)%Z) by (apply pow2_exp_lt; lra).
  assert ((i < ilog2 x + 1)%Z) by (apply pow2_exp_lt; lra).
  lia.
Qed.

Lemma ilog2_mono (x y : Q) : 0 < x -> x <= y -> (ilog2 x <= ilog2 y)%Z.
Proof.
  intros Hx Hxy.
  destruct (ilog2_spec x Hx) as [L _].
  destruct (ilog2_spec y ltac:(lra)) as [_ U].
  assert ((ilog2 x < ilog2 y + 1)%Z) by (apply pow2_exp_lt; lra).
  lia.
Qed.

Lemma rne_floor (x : Q) : (Qfloor x <= rne x <= Qfloor x + 1)%Z.
Proof.
  unfold rne. destruct (Qcompare _ _); [destruct (Z.even _)| |]; lia.
Qed.

Lemma rne_Z (z : Z) : rne (inject_Z z) = z.
Proof.
  unfold rne. rewrite Qfloor_Z.
  destruct (Qcompare_spec (inject_Z z - inject_Z z) (1 # 2)); [exfalso; lra | reflexivity | exfalso; lra].
Qed.

Lemma rne_mono (x y : Q) : x <= y -> (rne x <= rne y)%Z.
Proof.
  intros H. pose proof (Qfloor_resp_le _ _ H) as F.
  pose proof (rne_floor x). pose proof (rne_floor y).
  destruct (Z.eq_dec (Qfloor x) (Qfloor y)) as [E | N]; [| lia].
  unfold rne. rewrite <- E. set (f := Qfloor x).
  destruct (Qcompare_spec (x - inject_Z f) (1 # 2)) as [A | A | A];
    destruct (Qcompare_spec (y - inject_Z f) (1 # 2)) as [B | B | B];
    try destruct (Z.even f); try lia; exfalso; lra.
Qed.

Lemma rne_le_Z (x : Q) (n : Z) : x <= inject_Z n -> (rne x <= n)%Z.
Proof. intros H. rewrite <- (rne_Z n). apply rne_mono, H. Qed.

Lemma rne_ge_Z (x : Q) (n : Z) : inject_Z n <= x -> (n <= rne x)%Z.
Proof. intros H. rewrite <- (rne_Z n). apply rne_mono, H. Qed.

Lemma div_pow2_le (x y : Q) (e : Z) : x <= y -> x / pow2 e <= y / pow2 e.
Proof.
  intros H. unfold Qdiv. apply Qmult_le_compat_r; [exact H|].
  apply Qlt_le_weak, Qinv_lt_0_compat, pow2_pos.
Qed.

Lemma div_pow2_add (a e : Z) : pow2 (a + e) / pow2 e == pow2 a.
Proof.
  rewrite pow2_add. field. pose proof (pow2_pos e). lra.
Qed.

Lemma ulp_exp_mono (x y : Q) : 0 < x -> x <= y -> (ulp_exp x <= ulp_exp y)%Z.
Proof. intros Hx H. unfold ulp_exp. pose proof (ilog2_mono x y Hx H). lia. Qed.

(** The significand of a positive value never exceeds [2^53]... *)
Lemma fl_pos_upper (x : Q) : 0 < x -> fl_pos x <= pow2 (53 + ulp_exp x).
Proof.
  intros Hx. unfold fl_pos. set (e := ulp_exp x).
  destruct (ilog2_spec x Hx) as [_ U].
  assert (B : x <= pow2 (53 + e)).
  { apply Qlt_le_weak. eapply Qlt_le_trans; [exact U|].
    apply pow2_le. unfold e, ulp_exp. lia. }
  apply (div_pow2_le _ _ e) in B. rewrite div_pow2_add in B.
  rewrite <- (pow2_inj_Z 53) in B by lia.
  apply rne_le_Z in B. rewrite Zle_Qle in B.
  rewrite pow2_add, <- (pow2_inj_Z 53) by lia.
  apply Qmult_le_compat_r; [exact B | apply Qlt_le_weak, pow2_pos].
Qed.

(** ... and for a normal value it is at least [2^52]. *)
Lemma fl_pos_lower (x : Q) :
  0 < x -> (-1022 <= ilog2 x)%Z -> pow2 (52 + ulp_exp x) <= fl_pos x.
Proof.
  intros Hx Hn. unfold fl_pos. set (e := ulp_exp x).
  destruct (ilog2_spec x Hx) as [L _].
  assert (B : pow2 (52 + e) <= x).
  { replace (52 + e)%Z with (ilog2 x) by (unfold e, ulp_exp; lia). exact L. }
  apply (div_pow2_le _ _ e) in B. rewrite div_pow2_add in B.
  rewrite <- (pow2_inj_Z 52) in B by lia.
  apply rne_ge_Z in B. rewrite Zle_Qle in B.
  rewrite pow2_add, <- (pow2_inj_Z 52) by lia.
  apply Qmult_le_compat_r; [exact B | apply Qlt_le_weak, pow2_pos].
Qed.

Lemma fl_pos_mono (x y : Q) : 0 < x -> x <= y -> fl_pos x <= fl_pos y.
Proof.
  intros Hx H.
  pose proof (ulp_exp_mono x y Hx H) as He.
  destruct (Z.eq_dec (ulp_exp x) (ulp_exp y)) as [E | N].
  - unfold fl_pos. rewrite <- E. set (e := ulp_exp x).
    apply Qmult_le_compat_r; [| apply Qlt_le_weak, pow2_pos].
    rewrite <- Zle_Qle. apply rne_mono, div_pow2_le, H.
  - eapply Qle_trans; [apply fl_pos_upper, Hx|].
    eapply Qle_trans; [| apply fl_pos_lower].
    + apply pow2_le. lia.
    + lra.
    + unfold ulp_exp in *. lia.
Qed.

Lemma fl_pos_nonneg (x : Q) : 0 < x -> 0 <= fl_pos x.
Proof.
  intros Hx. unfold fl_pos.
  apply Qmult_le_0_compat; [| apply Qlt_le_weak, pow2_pos].
  replace 0 with (inject_Z 0) by reflexivity. rewrite <- Zle_Qle.
  apply rne_ge_Z. unfold Qdiv. apply Qmult_le_0_compat; [cbn; lra|].
  apply Qlt_le_weak, Qinv_lt_0_compat, pow2_pos.
Qed.

(** Rounding is monotone (stated on the non-negative values the script
    computes with). *)
Lemma fl_mono (x y : Q) : 0 <= x -> x <= y -> fl x <= fl y.
Proof.
  intros Hx H. unfold fl.
  destruct (Qcompare_spec x 0) as [A | A | A];
    destruct (Qcompare_spec y 0) as [B | B | B]; try lra.
  - apply fl_pos_nonneg, B.
  - apply fl_pos_mono; assumption.
Qed.

(** The largest binary64 value below [1]. *)
Lemma double_below_one (r : Q) :
  is_double r -> r < 1 -> r <= 9007199254740991 # 9007199254740992.
Proof.
  intros D H1.
  destruct (Qlt_le_dec (9007199254740991 # 9007199254740992) r) as [C | C];
    [exfalso | exact C].
  assert (E : ilog2 r = (-1)%Z).
  { apply ilog2_unique.
    - assert (P : pow2 (-1) == 1 # 2) by reflexivity. lra.
    - assert (P : pow2 (-1 + 1) == 1) by reflexivity. lra. }
  unfold is_double, fl in D.
  destruct (Qcompare_spec r 0) as [A | A | A]; try lra.
  unfold fl_pos, ulp_exp in D. rewrite E in D.
  change (Z.max (-1) (-1022) - 52)%Z with (-53)%Z in D.
  set (n := rne (r / pow2 (-53))) in D.
  assert (P : pow2 (-53) == 1 # 9007199254740992) by reflexivity.
  rewrite P in D.
  assert (L : 9007199254740991 # 1 < inject_Z n) by lra.
  assert (U : inject_Z n < 9007199254740992 # 1) by lra.
  change (9007199254740991 # 1) with (inject_Z 9007199254740991) in L.
  change (9007199254740992 # 1) with (inject_Z 9007199254740992) in U.
  rewrite <- Zlt_Qlt in L, U. lia.
Qed.

Lemma floor_nonneg (x : Q) : 0 <= x -> (0 <= Qfloor x)%Z.
Proof. intros H. apply (Qfloor_resp_le 0 x) in H. exact H. Qed.

Lemma floor_lt (x : Q) (n : Z) : x < inject_Z n -> (Qfloor x < n)%Z.
Proof.
  intros H. pose proof (Qfloor_le x) as F.
  rewrite Zlt_Qlt. lra.
Qed.

(** [Math.floor(Math.random() * 6)] is one of 0..5. *)
Lemma floor_mul6_range (r : Q) :
  is_double r -> 0 <= r -> r < 1 -> (0 <= Qfloor (fmul r 6) <= 5)%Z.
Proof.
  intros D H0 H1. pose proof (double_below_one r D H1) as B.
  unfold fmul. split.
  - apply floor_nonneg.
    assert (Z0 : fl 0 == 0) by reflexivity.
    rewrite <- Z0. apply fl_mono; lra.
  - assert (M : fl (r * 6) <= fl ((9007199254740991 # 9007199254740992) * 6))
      by (apply fl_mono; lra).
    assert (C : fl ((9007199254740991 # 9007199254740992) * 6) < 6)
      by (vm_compute; reflexivity).
    assert (Qfloor (fl (r * 6)) < 6)%Z; [| lia].
    apply floor_lt. change (inject_Z 6) with 6. lra.
Qed.

(** [70 + Math.random() * 29] stays within [70, 99]. *)
Lemma accuracy_value_range (r : Q) :
  0 <= r -> r < 1 -> 70 <= fadd 70 (fmul r 29) <= 99.
Proof.
  intros H0 H1. unfold fadd, fmul.
  assert (L : fl 0 <= fl (r * 29)) by (apply fl_mono; lra).
  assert (U : fl (r * 29) <= fl 29) by (apply fl_mono; lra).
  assert (E0 : fl 0 == 0) by reflexivity.
  assert (E29 : fl 29 == 29) by (vm_compute; reflexivity).
  assert (E70 : fl 70 == 70) by (vm_compute; reflexivity).
  assert (E99 : fl 99 == 99) by (vm_compute; reflexivity).
  split.
  - rewrite <- E70 at 1. apply fl_mono; lra.
  - rewrite <- E99. apply fl_mono; lra.
Qed.

End FloatFacts.

Module JSFacts.
Import Float JS Spec FloatFacts.
Local Open Scope string_scope.

Lemma fixed_layout_table :
  forallb (fun k => let n := (700 + Z.of_nat k)%Z in
                    String.eqb (fixed_layout n 1) (tenths_text n))
          (seq 0 291) = true.
Proof. vm_compute. reflexivity. Qed.

Lemma fixed_layout_tenths (n : Z) :
  (700 <= n <= 990)%Z -> fixed_layout n 1 = tenths_text n.
Proof.
  intros H. pose proof fixed_layout_table as T.
  rewrite forallb_forall in T.
  specialize (T (Z.to_nat (n - 700))).
  replace (700 + Z.of_nat (Z.to_nat (n - 700)))%Z with n in T by lia.
  apply String.eqb_eq, T, in_seq. lia.
Qed.

(** On the range of the simulated accuracies, [toFixed(1)] yields two
    integer digits, the point and one fractional digit. *)
Lemma toFixed1_tenths (x : Q) :
  (70 <= x)%Q -> (x <= 99)%Q ->
  exists n, (700 <= n <= 990)%Z /\ toFixed x 1 = tenths_text n.
Proof.
  intros L U. unfold toFixed.
  assert (P : Qle_bool 0 x = true) by (apply Qle_bool_iff; lra).
  rewrite P. cbn [append].
  change (inject_Z (10 ^ Z.of_nat 1)) with 10%Q.
  set (n := Qfloor (x * 10 + (1 # 2))).
  assert (B : (700 <= n <= 990)%Z).
  { split.
    - change 700%Z with (Qfloor (inject_Z 700)). apply Qfloor_resp_le.
      change (inject_Z 700) with 700%Q. lra.
    - assert (n < 991)%Z; [| lia].
      apply floor_lt. change (inject_Z 991) with 991%Q. lra. }
  exists n. split; [exact B | apply fixed_layout_tenths, B].
Qed.

Lemma same_number_eq (x y : number) : same_number x y = true -> x = y.
Proof.
  destruct x as [| [a b]], y as [| [c d]]; cbn; try discriminate; [reflexivity|].
  intros H. apply andb_prop in H. destruct H as [H1 H2].
  apply Z.eqb_eq in H1. apply Pos.eqb_eq in H2. subst. reflexivity.
Qed.

Lemma Number_table :
  forallb (fun k => let n := (700 + Z.of_nat k)%Z in
                    same_number (Number (tenths_text n)) (Fin (fl (inject_Z n / 10))))
          (seq 0 291) = true.
Proof. vm_compute. reflexivity. Qed.

(** Reading an accuracy text back gives the binary64 value nearest to
    its number of tenths. *)
Lemma Number_tenths (n : Z) :
  (700 <= n <= 990)%Z -> Number (tenths_text n) = Fin (fl (inject_Z n / 10)).
Proof.
  intros H. pose proof Number_table as T.
  rewrite forallb_forall in T.
  specialize (T (Z.to_nat (n - 700))).
  replace (700 + Z.of_nat (Z.to_nat (n - 700)))%Z with n in T by lia.
  apply same_number_eq, T, in_seq. lia.
Qed.

(** *** [Math.max] and [indexOf] *)

Lemma fold_Math_max (xs : list Z) (a : Z) :
  fold_left (fun acc x => match acc with
                          | NegInfinity => Max x
                          | Max b => Max (Z.max b x)
                          end) xs (Max a) = Max (fold_left Z.max xs a).
Proof.
  revert a. induction xs as [| x xs IH]; intros a; cbn; [reflexivity | apply IH].
Qed.

Lemma Math_max_cons (x : Z) (xs : list Z) :
  Math_max (x :: xs) = Max (fold_left Z.max xs x).
Proof. unfold Math_max. cbn [fold_left]. apply fold_Math_max. Qed.

Lemma fold_max_upper (xs : list Z) (a : Z) :
  (a <= fold_left Z.max xs a)%Z /\
  forall c, In c xs -> (c <= fold_left Z.max xs a)%Z.
Proof.
  revert a. induction xs as [| x xs IH]; intros a; cbn [fold_left].
  - split; [lia | intros c []].
  - destruct (IH (Z.max a x)) as [H1 H2]. split; [lia|].
    intros c [<- | Hc]; [lia | apply H2, Hc].
Qed.

Lemma fold_max_attained (xs : list Z) (a : Z) :
  fold_left Z.max xs a = a \/ In (fold_left Z.max xs a) xs.
Proof.
  revert a. induction xs as [| x xs IH]; intros a; cbn [fold_left]; [left; reflexivity|].
  destruct (IH (Z.max a x)) as [E | I].
  - rewrite E. destruct (Z.max_spec a x) as [[_ ->] | [_ ->]]; [right; left | left]; reflexivity.
  - right. right. exact I.
Qed.

(** [indexOf] finds the first position of a value that occurs. *)
Lemma indexOf_from_first (xs : list Z) (m k : Z) :
  In m xs ->
  exists i : nat,
    indexOf_from xs (Max m) k = (k + Z.of_nat i)%Z /\
    nth_error xs i = Some m /\
    forall j c, (j < i)%nat -> nth_error xs j = Some c -> c <> m.
Proof.
  revert k. induction xs as [| x xs IH]; intros k I; [destruct I|].
  cbn [indexOf_from strict_eq].
  destruct (Z.eqb_spec x m) as [-> | N].
  - exists 0%nat. repeat split; [lia | intros j c H; lia].
  - destruct I as [E | I]; [contradiction|].
    destruct (IH (k + 1)%Z I) as (i & E & Hn & F).
    exists (S i). repeat split; [lia | exact Hn |].
    intros [| j] c Hj Hc; cbn in Hc.
    + injection Hc as <-. exact N.
    + apply (F j c); [lia | exact Hc].
Qed.

(** The dominant-type index of a non-empty sequence is the smallest
    index that holds the greatest count. *)
Lemma first_argmax (counts : list Z) :
  counts <> [] ->
  exists (i : nat) (m : Z),
    indexOf counts (Math_max counts) = Z.of_nat i /\
    nth_error counts i = Some m /\
    (forall j c, nth_error counts j = Some c -> (c <= m)%Z) /\
    (forall j c, (j < i)%nat -> nth_error counts j = Some c -> (c < m)%Z).
Proof.
  destruct counts as [| x xs]; [congruence | intros _].
  rewrite Math_max_cons. set (m := fold_left Z.max xs x).
  assert (U : forall c, In c (x :: xs) -> (c <= m)%Z).
  { destruct (fold_max_upper xs x) as [H1 H2].
    intros c [<- | Hc]; [exact H1 | apply H2, Hc]. }
  assert (I : In m (x :: xs)).
  { destruct (fold_max_attained xs x) as [E | I]; [left; symmetry; exact E | right; exact I]. }
  destruct (indexOf_from_first (x :: xs) m 0 I) as (i & E & Hn & F).
  exists i, m. unfold indexOf. rewrite E.
  repeat split; [exact Hn | |].
  - intros j c Hc. apply U, (nth_error_In _ _ Hc).
  - intros j c Hj Hc.
    pose proof (U c (nth_error_In _ _ Hc)). pose proof (F j c Hj Hc). lia.
Qed.

(** *** Texts *)

Lemma count_lf_app (a b : string) : count_lf (a ++ b) = (count_lf a + count_lf b)%nat.
Proof. induction a as [| c a IH]; cbn; [reflexivity | rewrite IH; lia]. Qed.

Lemma count_lf_double_quotes (s : string) : count_lf (double_quotes s) = count_lf s.
Proof.
  induction s as [| c s IH]; cbn [double_quotes]; [reflexivity|].
  destruct (Ascii.eqb_spec c "034"%char) as [-> | N]; cbn; rewrite IH; reflexivity.
Qed.

Lemma count_lf_quoted (f : string) : count_lf (quoted f) = count_lf f.
Proof.
  unfold quoted. rewrite !count_lf_app, count_lf_double_quotes. cbn. lia.
Qed.

Lemma count_lf_concat (sep : string) (l : list string) :
  count_lf (String.concat sep l) =
  (list_sum (map count_lf l) + (List.length l - 1) * count_lf sep)%nat.
Proof.
  induction l as [| x l IH]; [reflexivity|].
  destruct l as [| y l]; [cbn; lia|].
  change (String.concat sep (x :: y :: l))
    with (x ++ sep ++ String.concat sep (y :: l)).
  rewrite !count_lf_app, IH.
  cbn [map list_sum List.length Nat.sub Nat.mul]. rewrite !Nat.sub_0_r.
  unfold list_sum. cbn [Nat.mul fold_right]. lia.
Qed.

Lemma count_lf_uint (d : Decimal.uint) : count_lf (NilEmpty.string_of_uint d) = 0%nat.
Proof. induction d; cbn; auto. Qed.

Lemma count_lf_number (n : Z) : count_lf (String_ (Num n)) = 0%nat.
Proof.
  cbn [String_]. unfold NilZero.string_of_int, NilZero.string_of_uint.
  destruct (Z.to_int n) as [d | d]; destruct d; cbn; auto using count_lf_uint.
Qed.

End JSFacts.

Module PageFacts.
Import Float JS Page Spec FloatFacts JSFacts.
Local Open Scope string_scope.

Lemma fakeDetection_unfold (fileName : string) (p : page) :
  fakeDetection fileName p =
  ({| det_counts :=
        if (fold_left Z.add (drawn_counts p) 0 =? 0)%Z
        then set_first (drawn_counts p) 1%Z else drawn_counts p;
      det_size := at_ SIZE_BUCKETS (Math_floor (fmul (draw p 4) 4));
      det_accuracy := toFixed (fadd 70 (fmul (draw p 5) 29)) 1 |},
   with_drawn (6 + drawn p) p).
Proof. reflexivity. Qed.

Lemma drawn_counts_range (p : page) :
  valid_random (random p) ->
  exists a b c d,
    drawn_counts p = [a; b; c; d] /\
    (0 <= a <= 5 /\ 0 <= b <= 5 /\ 0 <= c <= 5 /\ 0 <= d <= 5)%Z.
Proof.
  intros V. unfold drawn_counts. cbn [map seq].
  do 4 eexists. split; [reflexivity|].
  repeat split;
    match goal with
    | |- context [draw p ?i] =>
        destruct (V (i + drawn p)%nat) as (D & L & U);
        pose proof (floor_mul6_range _ D L U); unfold Math_floor, draw; lia
    end.
Qed.

Lemma det_counts_cases (fileName : string) (p : page) :
  valid_random (random p) ->
  exists a b c d,
    drawn_counts p = [a; b; c; d] /\
    (0 <= a <= 5 /\ 0 <= b <= 5 /\ 0 <= c <= 5 /\ 0 <= d <= 5)%Z /\
    det_counts (eval (fakeDetection fileName) p) =
      if (0 + a + b + c + d =? 0)%Z then [1; b; c; d]%Z else [a; b; c; d].
Proof.
  intros V. destruct (drawn_counts_range p V) as (a & b & c & d & E & R).
  exists a, b, c, d. split; [exact E |]. split; [exact R |].
  unfold eval. rewrite fakeDetection_unfold. cbn [fst det_counts].
  rewrite E. reflexivity.
Qed.

(** C1.  Every result of the detection simulator has exactly four counts,
    each an integer in [0, 5]; when the four drawn values are all zero the
    first count is set to 1, otherwise the counts are the drawn values;
    so the counts always sum to at least 1. *)
Theorem fakeDetection_counts (fileName : string) (p : page) :
  valid_random (random p) ->
  let raw := drawn_counts p in
  let counts := det_counts (eval (fakeDetection fileName) p) in
  List.length counts = 4%nat /\
  Forall (fun c => 0 <= c <= 5)%Z counts /\
  (raw = [0; 0; 0; 0]%Z -> counts = [1; 0; 0; 0]%Z) /\
  (raw <> [0; 0; 0; 0]%Z -> counts = raw) /\
  (1 <= sum counts)%Z.
Proof.
  intros V raw counts. subst raw counts.
  destruct (det_counts_cases fileName p V) as (a & b & c & d & E & R & ->).
  rewrite E.
  destruct (Z.eqb_spec (0 + a + b + c + d) 0) as [Z0 | NZ].
  - assert (a = 0 /\ b = 0 /\ c = 0 /\ d = 0)%Z as (-> & -> & -> & ->) by lia.
    repeat split.
    + repeat constructor; lia.
    + intros C. exfalso. apply C. reflexivity.
    + cbn. lia.
  - repeat split.
    + repeat constructor; lia.
    + intros C. injection C as -> -> -> ->. lia.
    + cbn. lia.
Qed.

Lemma fakeDetection_counts_witness :
  valid_random (random (init (fun _ => 0%Q))) /\
  det_counts (eval (fakeDetection "a.png") (init (fun _ => 0%Q))) = [1; 0; 0; 0]%Z.
Proof.
  assert (V : valid_random (random (init (fun _ => 0%Q)))).
  { intros i. split; [reflexivity | split; [apply Qle_refl | reflexivity]]. }
  split; [exact V|].
  apply (fakeDetection_counts "a.png" (init (fun _ => 0%Q)) V).
  reflexivity.
Defined.

Lemma det_accuracy_tenths (fileName : string) (p : page) :
  valid_random (random p) ->
  exists n : Z,
    (700 <= n <= 990)%Z /\
    det_accuracy (eval (fakeDetection fileName) p) = tenths_text n.
Proof.
  intros V. unfold eval. rewrite fakeDetection_unfold. cbn [fst det_accuracy].
  destruct (V (5 + drawn p)%nat) as (_ & L & U).
  destruct (accuracy_value_range _ L U) as [A B].
  exact (toFixed1_tenths _ A B).
Qed.

(** C6.  Every simulated accuracy is the text of a number of tenths
    between 70.0 and 99.0: two integer digits, the decimal point and
    exactly one fractional digit, with nothing after it. *)
Theorem fakeDetection_accuracy (fileName : string) (p : page) :
  valid_random (random p) ->
  exists n : Z,
    (700 <= n <= 990)%Z /\
    (70 <= inject_Z n / 10 <= 99)%Q /\
    det_accuracy (eval (fakeDetection fileName) p) = tenths_text n /\
    String.length (det_accuracy (eval (fakeDetection fileName) p)) = 4%nat.
Proof.
  intros V. destruct (det_accuracy_tenths fileName p V) as (n & R & E).
  exists n. rewrite E. repeat split; try lia.
  - assert (700 <= inject_Z n)%Q
      by (change 700%Q with (inject_Z 700); rewrite <- Zle_Qle; lia).
    apply Qle_shift_div_l; [reflexivity | lra].
  - assert (inject_Z n <= 990)%Q
      by (change 990%Q with (inject_Z 990); rewrite <- Zle_Qle; lia).
    apply Qle_shift_div_r; [reflexivity | lra].
Qed.

Lemma fakeDetection_accuracy_witness :
  valid_random (random (init (fun _ => 0%Q))) /\
  exists n : Z,
    (700 <= n <= 990)%Z /\
    (70 <= inject_Z n / 10 <= 99)%Q /\
    det_accuracy (eval (fakeDetection "a.png") (init (fun _ => 0%Q))) = tenths_text n /\
    String.length (det_accuracy (eval (fakeDetection "a.png") (init (fun _ => 0%Q)))) = 4%nat.
Proof.
  assert (V : valid_random (random (init (fun _ => 0%Q)))).
  { intros i. split; [reflexivity | split; [apply Qle_refl | reflexivity]]. }
  split; [exact V|].
  exact (fakeDetection_accuracy "a.png" (init (fun _ => 0%Q)) V).
Defined.

(** *** How each handler changes the page *)

Lemma reader_onload_unfold (f r : string) (p : page) :
  exec (reader_onload f r) p =
  let img := recordOf f (eval (fakeDetection f) p) in
  {| allImages := allImages p ++ [img];
     imageGrid := cardOf r img :: imageGrid p;
     historyTableBody := historyTableBody p ++ [rowOf img];
     compositionChart := compositionChart p;
     accuracyChart := accuracyChart p;
     alerts := alerts p;
     downloads := downloads p;
     windows := windows p;
     timers := timers p ++ [{| callback := UpdateCharts; delay := 100 |}];
     random := random p;
     drawn := 6 + drawn p |}.
Proof. reflexivity. Qed.

Lemma downloadCSV_unfold (p : page) :
  exec downloadCSV p =
  match allImages p with
  | [] => with_alerts (alerts p ++ ["No history to download."]) p
  | _ :: _ =>
      with_downloads
        (downloads p ++ [{| fileName := "microplastics_history.csv";
                            mimeType := "text/csv;charset=utf-8;";
                            content := csvContent (allImages p) |}]) p
  end.
Proof. unfold exec, downloadCSV. destruct (allImages p); reflexivity. Qed.

Lemma update_nth_last {A : Type} (f : A -> A) (l : list A) (x : A) :
  update_nth (List.length l) f (l ++ [x])%list = (l ++ [f x])%list.
Proof. induction l as [| y l IH]; cbn; [reflexivity | rewrite IH; reflexivity]. Qed.

Lemma printReport_unfold (allowed : bool) (now : string) (p : page) :
  exec (printReport allowed now) p =
  match allImages p with
  | [] => with_alerts (alerts p ++ ["No history to print."]) p
  | _ :: _ =>
      if allowed then
        with_timers
          (timers p ++ [{| callback := PrintWindow (List.length (windows p));
                           delay := 400 |}])
          (with_windows
             (windows p ++ [{| features := "width=900,height=700";
                               document := [printHTML now (allImages p)];
                               prints := 0 |}]) p)
      else with_alerts (alerts p ++ ["Popup blocked. Allow popups and try again."]) p
  end.
Proof.
  unfold exec, printReport. destruct (allImages p) eqn:E; [reflexivity|].
  destruct allowed; [| reflexivity].
  cbn [List.length Nat.eqb].
  unfold bind, window_open, document_write, setTimeout, get_allImages.
  cbn [snd fst allImages with_windows with_timers windows timers].
  rewrite E, update_nth_last. reflexivity.
Qed.

Lemma run_snoc (es : list event) (e : event) (p : page) :
  run (es ++ [e]) p = exec (handle e) (run es p).
Proof. unfold run. rewrite fold_left_app. reflexivity. Qed.

Lemma updateCharts_unfold (p : page) :
  exec updateCharts p =
  with_accuracyChart
    {| line_labels := map shortName_ (allImages p);
       line := {| label := label (line (accuracyChart p));
                  data := map (fun img => Number (accuracy img)) (allImages p);
                  backgroundColor := backgroundColor (line (accuracyChart p)) |} |}
    (with_compositionChart
       {| labels := map shortName_ (allImages p);
          datasets :=
            mapi_from 0 (fun ds typeIndex =>
                           {| label := label ds;
                              data := map (fun img => count_at img typeIndex) (allImages p);
                              backgroundColor := backgroundColor ds |})
                      (datasets (compositionChart p)) |} p).
Proof. reflexivity. Qed.

(** Case analysis on the event and on the branch its handler takes. *)
Ltac handler_cases e p :=
  destruct e as [?f ?r | | ?allowed ?now | ?i]; cbn [handle];
  [ rewrite reader_onload_unfold
  | rewrite downloadCSV_unfold; destruct (allImages p) eqn:?E
  | rewrite printReport_unfold; destruct (allImages p) eqn:?E;
    [| destruct allowed]
  | unfold exec, fire;
    destruct (nth_error (timers p) i) as [[[| ?w] ?d] |];
    cbn [run_task callback snd];
    [ change (snd (updateCharts ?q)) with (exec updateCharts q);
      rewrite updateCharts_unfold | | ] ].

Lemma handle_allImages (e : event) (p : page) :
  allImages (exec (handle e) p) =
  match e with
  | Load f _ => (allImages p ++ [recordOf f (eval (fakeDetection f) p)])%list
  | _ => allImages p
  end.
Proof. handler_cases e p; cbn; auto. Qed.

Lemma handle_imageGrid (e : event) (p : page) :
  imageGrid (exec (handle e) p) =
  match e with
  | Load f r => cardOf r (recordOf f (eval (fakeDetection f) p)) :: imageGrid p
  | _ => imageGrid p
  end.
Proof. handler_cases e p; cbn; auto. Qed.

Lemma handle_historyTableBody (e : event) (p : page) :
  historyTableBody (exec (handle e) p) =
  match e with
  | Load f _ =>
      (historyTableBody p ++ [rowOf (recordOf f (eval (fakeDetection f) p))])%list
  | _ => historyTableBody p
  end.
Proof. handler_cases e p; cbn; auto. Qed.

Lemma handle_random (e : event) (p : page) :
  random (exec (handle e) p) = random p.
Proof. handler_cases e p; cbn; auto. Qed.

(** *** Views of the store along a run *)

Lemma loads_snoc (es : list event) (e : event) :
  loads (es ++ [e]) =
  (loads es ++ match e with Load f r => [(f, r)] | _ => [] end)%list.
Proof.
  unfold loads. rewrite flat_map_app. cbn [flat_map].
  rewrite app_nil_r. reflexivity.
Qed.

Lemma combine_snoc {A B : Type} (l1 : list A) (l2 : list B) (a : A) (b : B) :
  List.length l1 = List.length l2 ->
  combine (l1 ++ [a]) (l2 ++ [b]) = (combine l1 l2 ++ [(a, b)])%list.
Proof.
  revert l2. induction l1 as [| x l1 IH]; intros [| y l2] H; cbn in *;
    try discriminate; [reflexivity|].
  rewrite IH by lia. reflexivity.
Qed.

Lemma run_views (rnd : nat -> Q) (es : list event) :
  let p := run es (init rnd) in
  List.length (allImages p) = List.length (loads es) /\
  map name (allImages p) = map fst (loads es) /\
  imageGrid p =
    rev (map (fun '(src, img) => cardOf src img)
             (combine (map snd (loads es)) (allImages p))) /\
  historyTableBody p = map rowOf (allImages p).
Proof.
  induction es as [| e es IH] using rev_ind; [cbn; auto|].
  cbn zeta in *. destruct IH as (IL & IN & IG & IT).
  rewrite run_snoc, loads_snoc.
  rewrite handle_allImages, handle_imageGrid, handle_historyTableBody.
  set (p := run es (init rnd)) in *.
  destruct e as [f r | | allowed now | i]; rewrite ?app_nil_r; auto.
  rewrite !length_app, !map_app. cbn [List.length map fst snd name recordOf].
  rewrite combine_snoc by (rewrite length_map; lia).
  rewrite map_app, rev_app_distr. cbn [map rev app].
  repeat split; try congruence; lia.
Qed.

Lemma mapi_from_skeleton (g : Z -> list value) (k : Z) (l : list (dataset value)) :
  map (fun ds => (label ds, backgroundColor ds))
      (mapi_from k (fun ds t => {| label := label ds; data := g t;
                                   backgroundColor := backgroundColor ds |}) l) =
  map (fun ds => (label ds, backgroundColor ds)) l.
Proof.
  revert k. induction l as [| ds l IH]; intros k; cbn; [reflexivity|].
  rewrite IH. reflexivity.
Qed.

Lemma handle_skeleton (e : event) (p : page) :
  skeleton (compositionChart (exec (handle e) p)) = skeleton (compositionChart p) /\
  label (line (accuracyChart (exec (handle e) p))) = label (line (accuracyChart p)) /\
  backgroundColor (line (accuracyChart (exec (handle e) p))) =
    backgroundColor (line (accuracyChart p)).
Proof.
  handler_cases e p; cbn; auto.
  unfold skeleton. cbn. rewrite mapi_from_skeleton. auto.
Qed.

Lemma run_skeleton (rnd : nat -> Q) (es : list event) :
  let p := run es (init rnd) in
  skeleton (compositionChart p) = skeleton (projection []) /\
  label (line (accuracyChart p)) = "Accuracy (%)" /\
  backgroundColor (line (accuracyChart p)) = Str "rgba(239,68,68,0.08)".
Proof.
  induction es as [| e es IH] using rev_ind; [cbn; auto|].
  cbn zeta in *. rewrite run_snoc.
  destruct (handle_skeleton e (run es (init rnd))) as (-> & -> & ->).
  exact IH.
Qed.

Lemma mapi_from_projection (g : Z -> list value) (c : chart) :
  skeleton c = skeleton (projection []) ->
  mapi_from 0 (fun ds t => {| label := label ds; data := g t;
                              backgroundColor := backgroundColor ds |}) (datasets c) =
  mapi_from 0 (fun t i => {| label := t; data := g i;
                             backgroundColor := at_ COLORS i |}) TYPES.
Proof.
  unfold skeleton. destruct c as [ls ds]. cbn [datasets].
  destruct ds as [| [l0 d0 b0] [| [l1 d1 b1] [| [l2 d2 b2] [| [l3 d3 b3] [| x ds]]]]];
    cbn; intros H; try discriminate.
  injection H as -> -> -> -> -> -> -> ->. reflexivity.
Qed.

Lemma updateCharts_run (rnd : nat -> Q) (es : list event) :
  let p := run es (init rnd) in
  compositionChart (exec updateCharts p) = projection (allImages p) /\
  accuracyChart (exec updateCharts p) = line_projection (allImages p).
Proof.
  cbn zeta. destruct (run_skeleton rnd es) as (S & L & B).
  rewrite updateCharts_unfold. cbn [compositionChart accuracyChart with_accuracyChart
                                    with_compositionChart].
  rewrite L, B. unfold projection, line_projection.
  rewrite (mapi_from_projection
             (fun t => map (fun img => count_at img t) (allImages (run es (init rnd)))) _ S).
  auto.
Qed.

Lemma nth_error_mapi_from {A B : Type} (f : A -> Z -> B) (l : list A) (k : Z) (t : nat) :
  nth_error (mapi_from k f l) t =
  option_map (fun x => f x (k + Z.of_nat t)%Z) (nth_error l t).
Proof.
  revert k t. induction l as [| x l IH]; intros k [| t]; cbn [mapi_from nth_error option_map];
    try reflexivity.
  - rewrite Z.add_0_r. reflexivity.
  - rewrite IH. destruct (nth_error l t); cbn; [f_equal; f_equal; lia | reflexivity].
Qed.

Lemma count_at_nat (img : imgObj) (t : nat) :
  count_at img (Z.of_nat t) =
  match nth_error (counts img) t with Some c => Num c | None => Undefined end.
Proof.
  unfold count_at, index.
  destruct (Z.ltb_spec (Z.of_nat t) 0) as [H | H]; [lia|].
  rewrite Nat2Z.id. reflexivity.
Qed.

(** *** Records of the store *)

Lemma run_random (rnd : nat -> Q) (es : list event) :
  random (run es (init rnd)) = rnd.
Proof.
  induction es as [| e es IH] using rev_ind; [reflexivity|].
  rewrite run_snoc, handle_random. exact IH.
Qed.

Lemma fakeDetection_generated (f : string) (p : page) :
  valid_random (random p) -> generated (recordOf f (eval (fakeDetection f) p)).
Proof.
  intros V. unfold generated. cbn [recordOf counts accuracy].
  destruct (det_counts_cases f p V) as (a & b & c & d & _ & R & ->).
  destruct (det_accuracy_tenths f p V) as (n & B & E).
  destruct R as (Ra & Rb & Rc & Rd).
  destruct (Z.eqb_spec (0 + a + b + c + d) 0) as [Z0 | NZ].
  - split; [reflexivity |]. split; [repeat (constructor; [lia |]); constructor |].
    split; [unfold sum; cbn [fold_right]; lia | exists n; auto].
  - split; [reflexivity |]. split; [repeat (constructor; [lia |]); constructor |].
    split; [unfold sum; cbn [fold_right]; lia | exists n; auto].
Qed.

(** Every record of a reachable store is a generated one. *)
Lemma store_generated (rnd : nat -> Q) (es : list event) :
  valid_random rnd -> Forall generated (allImages (run es (init rnd))).
Proof.
  intros V. induction es as [| e es IH] using rev_ind; [constructor|].
  rewrite run_snoc, handle_allImages.
  destruct e as [f r | | allowed now | i]; auto.
  apply Forall_app. split; [exact IH|]. constructor; [| constructor].
  apply fakeDetection_generated. rewrite run_random. exact V.
Qed.

(** Every record of a reachable store has four counts, whatever the
    random stream. *)
Lemma store_four_counts (rnd : nat -> Q) (es : list event) :
  Forall (fun img => List.length (counts img) = 4%nat) (allImages (run es (init rnd))).
Proof.
  induction es as [| e es IH] using rev_ind; [constructor|].
  rewrite run_snoc, handle_allImages.
  destruct e as [f r | | allowed now | i]; auto.
  apply Forall_app. split; [exact IH|]. constructor; [| constructor].
  cbn [recordOf counts]. unfold eval. rewrite fakeDetection_unfold.
  cbn [fst det_counts]. unfold drawn_counts. cbn [map seq].
  destruct (_ =? _)%Z; reflexivity.
Qed.

Lemma fire_updateCharts (p : page) (i : nat) (d : Z) :
  nth_error (timers p) i = Some {| callback := UpdateCharts; delay := d |} ->
  compositionChart (exec (handle (Fire i)) p) = compositionChart (exec updateCharts p) /\
  accuracyChart (exec (handle (Fire i)) p) = accuracyChart (exec updateCharts p) /\
  allImages (exec (handle (Fire i)) p) = allImages p.
Proof.
  intros H. cbn [handle]. unfold exec at 1 3 5, fire. rewrite H.
  cbn [callback run_task].
  change (snd (updateCharts ?q)) with (exec updateCharts q).
  rewrite !updateCharts_unfold. cbn. auto.
Qed.

(** C5.  Along any run of the page, the card list is the exact reverse of
    the history store (each new card is put in front), the history-table
    rows follow the store order (each new row is put at the end), and so
    do the chart labels and both chart series once the charts are
    recomputed, in particular when a pending chart timer fires; after N
    loads each of these views has N entries. *)
Theorem views_follow_store (rnd : nat -> Q) (es : list event) :
  let p := run es (init rnd) in
  let store := allImages p in
  let N := List.length (loads es) in
  let comp := compositionChart (exec updateCharts p) in
  let acc := accuracyChart (exec updateCharts p) in
  (List.length store = N /\ map name store = map fst (loads es)) /\
  (imageGrid p =
     rev (map (fun '(src, img) => cardOf src img)
              (combine (map snd (loads es)) store)) /\
   List.length (imageGrid p) = N) /\
  (historyTableBody p = map rowOf store /\
   List.length (historyTableBody p) = N) /\
  (labels comp = map shortName_ store /\
   line_labels acc = map shortName_ store /\
   (forall (t : nat) ds, nth_error (datasets comp) t = Some ds ->
      data ds = map (fun img => count_at img (Z.of_nat t)) store /\
      List.length (data ds) = N) /\
   data (line acc) = map (fun img => Number (accuracy img)) store /\
   List.length (data (line acc)) = N) /\
  (forall i d,
     nth_error (timers p) i = Some {| callback := UpdateCharts; delay := d |} ->
     compositionChart (run (es ++ [Fire i]) (init rnd)) = comp /\
     accuracyChart (run (es ++ [Fire i]) (init rnd)) = acc /\
     allImages (run (es ++ [Fire i]) (init rnd)) = store).
Proof.
  cbn zeta.
  destruct (run_views rnd es) as (L & Nm & G & T).
  destruct (updateCharts_run rnd es) as (C & A).
  set (p := run es (init rnd)) in *.
  split; [split; [exact L | exact Nm] |].
  split; [split; [exact G |] |].
  { rewrite G, length_rev, length_map, length_combine, length_map. lia. }
  split; [split; [exact T | rewrite T, length_map; exact L] |].
  split.
  - rewrite C, A. split; [reflexivity |]. split; [reflexivity |].
    split; [| split; [reflexivity | cbn; rewrite length_map; exact L]].
    intros t ds H. cbn [projection datasets] in H.
    rewrite nth_error_mapi_from in H.
    destruct (nth_error TYPES t); cbn in H; [| discriminate].
    injection H as <-. cbn [data]. rewrite length_map. split; [reflexivity | exact L].
  - intros i d H. rewrite run_snoc. fold p. exact (fire_updateCharts p i d H).
Qed.

(** C8.  Recomputing the charts over the store of any reachable page
    yields: labels that are the short names in store order; one
    composition series per category whose i-th entry is that category's
    count of the i-th record; an accuracy series whose i-th entry is the
    number read from the i-th record's accuracy text (the binary64 value
    nearest to its tenths, for generated records).  The result is a
    function of the store alone (nothing of the previous series is
    kept), and an empty store gives empty labels and series. *)
Theorem updateCharts_projection (rnd : nat -> Q) (es : list event) :
  let p := run es (init rnd) in
  let store := allImages p in
  let comp := compositionChart (exec updateCharts p) in
  let acc := accuracyChart (exec updateCharts p) in
  (labels comp = map shortName_ store /\ line_labels acc = map shortName_ store) /\
  map label (datasets comp) = TYPES /\
  (forall (t : nat) ds, nth_error (datasets comp) t = Some ds ->
     List.length (data ds) = List.length store /\
     forall i img, nth_error store i = Some img ->
       exists c, nth_error (counts img) t = Some c /\
                 nth_error (data ds) i = Some (Num c)) /\
  (List.length (data (line acc)) = List.length store /\
   (forall i img, nth_error store i = Some img ->
      nth_error (data (line acc)) i = Some (Number (accuracy img))) /\
   (valid_random rnd ->
    forall i img, nth_error store i = Some img ->
      exists n, (700 <= n <= 990)%Z /\ accuracy img = tenths_text n /\
                nth_error (data (line acc)) i = Some (Fin (fl (inject_Z n / 10))))) /\
  (comp = projection store /\ acc = line_projection store) /\
  (store = [] ->
   labels comp = [] /\ line_labels acc = [] /\
   (forall ds, In ds (datasets comp) -> data ds = []) /\
   data (line acc) = []).
Proof.
  cbn zeta.
  destruct (updateCharts_run rnd es) as (C & A).
  pose proof (store_four_counts rnd es) as F4.
  set (p := run es (init rnd)) in *.
  rewrite C, A.
  split; [split; reflexivity |]. split; [reflexivity |]. split; [| split; [| split]].
  - intros t ds H.
    cbn [projection datasets] in H. rewrite nth_error_mapi_from in H.
    destruct (nth_error TYPES t) as [ty |] eqn:Ty; cbn in H; [| discriminate].
    injection H as <-. cbn [data]. split; [apply length_map |].
    intros i img Hi.
    rewrite Forall_forall in F4. pose proof (F4 img (nth_error_In _ _ Hi)) as L4.
    assert (T4 : (t < List.length (counts img))%nat).
    { rewrite L4. change 4%nat with (List.length TYPES).
      apply nth_error_Some. congruence. }
    destruct (nth_error (counts img) t) as [c |] eqn:Ec;
      [| apply nth_error_Some in T4; contradiction].
    exists c. split; [reflexivity |].
    rewrite nth_error_map, Hi. cbn [option_map].
    rewrite ?Z.add_0_l, count_at_nat, Ec. reflexivity.
  - split; [cbn; apply length_map |]. split.
    + intros i img Hi. cbn [line_projection line data].
      rewrite nth_error_map, Hi. reflexivity.
    + intros V i img Hi.
      pose proof (store_generated rnd es V) as G. fold p in G.
      rewrite Forall_forall in G.
      destruct (G img (nth_error_In _ _ Hi)) as (_ & _ & _ & n & B & E).
      exists n. split; [exact B |]. split; [exact E |].
      cbn [line_projection line data].
      rewrite nth_error_map, Hi. cbn [option_map].
      rewrite E, (Number_tenths n B). reflexivity.
  - split; reflexivity.
  - intros H. rewrite H. repeat split.
    intros ds D. cbn in D.
    destruct D as [<- | [<- | [<- | [<- | []]]]]; reflexivity.
Qed.

(** C4.  With an empty store, each of the two exports shows its
    empty-history notice once and does nothing else: the page is the one
    before the call with that single notice added, so no file is offered,
    no window is opened, written to or printed, no timer is set, and the
    store, the cards, the table and the charts are as they were. *)
Theorem empty_history_exports (p : page) :
  allImages p = [] ->
  exec downloadCSV p = with_alerts (alerts p ++ ["No history to download."]) p /\
  (forall allowed now,
     exec (printReport allowed now) p =
     with_alerts (alerts p ++ ["No history to print."]) p) /\
  (downloads (exec downloadCSV p) = downloads p /\
   windows (exec downloadCSV p) = windows p /\
   timers (exec downloadCSV p) = timers p) /\
  (forall allowed now,
     downloads (exec (printReport allowed now) p) = downloads p /\
     windows (exec (printReport allowed now) p) = windows p /\
     timers (exec (printReport allowed now) p) = timers p).
Proof.
  intros E.
  assert (D : exec downloadCSV p =
              with_alerts (alerts p ++ ["No history to download."]) p)
    by (rewrite downloadCSV_unfold, E; reflexivity).
  assert (P : forall allowed now,
             exec (printReport allowed now) p =
             with_alerts (alerts p ++ ["No history to print."]) p)
    by (intros; rewrite printReport_unfold, E; reflexivity).
  split; [exact D|]. split; [exact P|]. split.
  - rewrite D. auto.
  - intros allowed now. rewrite P. auto.
Qed.

Lemma empty_history_exports_witness :
  allImages (init (fun _ => 0%Q)) = [] /\
  alerts (exec downloadCSV (init (fun _ => 0%Q))) = ["No history to download."] /\
  alerts (exec (printReport true "now") (init (fun _ => 0%Q))) = ["No history to print."].
Proof.
  split; [reflexivity|].
  destruct (empty_history_exports (init (fun _ => 0%Q)) eq_refl) as (D & P & _).
  rewrite D, (P true "now"). split; reflexivity.
Defined.

(** C9.  With a non-empty store and the popup refused, the print
    operation shows the popup-blocked notice (a text of its own) and does
    nothing else: no window exists to write to or print, no timer is set,
    and the store is as it was. *)
Theorem popup_blocked (now : string) (p : page) :
  allImages p <> [] ->
  exec (printReport false now) p =
    with_alerts (alerts p ++ ["Popup blocked. Allow popups and try again."]) p /\
  windows (exec (printReport false now) p) = windows p /\
  timers (exec (printReport false now) p) = timers p /\
  allImages (exec (printReport false now) p) = allImages p /\
  "Popup blocked. Allow popups and try again." <> "No history to print.".
Proof.
  intros NE.
  assert (E : exec (printReport false now) p =
              with_alerts (alerts p ++ ["Popup blocked. Allow popups and try again."]) p).
  { rewrite printReport_unfold. destruct (allImages p); [contradiction | reflexivity]. }
  rewrite E. repeat split; auto. discriminate.
Qed.

Lemma popup_blocked_witness :
  allImages (run [Load "a.png" "data:"] (init (fun _ => 0%Q))) <> [] /\
  alerts (exec (printReport false "now") (run [Load "a.png" "data:"] (init (fun _ => 0%Q))))
    = ["Popup blocked. Allow popups and try again."].
Proof.
  assert (NE : allImages (run [Load "a.png" "data:"] (init (fun _ => 0%Q))) <> [])
    by (vm_compute; discriminate).
  split; [exact NE|].
  destruct (popup_blocked "now" _ NE) as (E & _).
  rewrite E. reflexivity.
Defined.

(** *** Dominant type *)

Lemma domTypeIndex_first_argmax (cs : list Z) :
  cs <> [] ->
  exists (i : nat) (m : Z),
    domTypeIndex cs = Z.of_nat i /\
    nth_error cs i = Some m /\
    (forall j c, nth_error cs j = Some c -> (c <= m)%Z) /\
    (forall j c, (j < i)%nat -> nth_error cs j = Some c -> (c < m)%Z).
Proof. intros H. exact (first_argmax cs H). Qed.

(** C2.  For a record with at least one count, the dominant-type index is
    the smallest index holding the greatest count; the history-table row,
    the CSV row and the print-report row all take their dominant type
    from [TYPES] at that index (the table with its fallback for an index
    without a type); for counts [2; 2; 0; 0] it is index 0, "Fiber". *)
Theorem dominant_type_first_argmax (img : imgObj) :
  counts img <> [] ->
  (exists (i : nat) (m : Z),
     domTypeIndex (counts img) = Z.of_nat i /\
     nth_error (counts img) i = Some m /\
     (forall j c, nth_error (counts img) j = Some c -> (c <= m)%Z) /\
     (forall j c, (j < i)%nat -> nth_error (counts img) j = Some c -> (c < m)%Z) /\
     historyRowDomType img = or_else (at_ TYPES (Z.of_nat i)) "Unknown" /\
     csvDomType img = at_ TYPES (Z.of_nat i) /\
     nth_error (csvRow img) 1 = Some (at_ TYPES (Z.of_nat i)) /\
     printDomType img = at_ TYPES (Z.of_nat i)) /\
  domTypeIndex [2; 2; 0; 0]%Z = 0%Z /\
  at_ TYPES 0 = Str "Fiber".
Proof.
  intros NE. split; [| split; reflexivity].
  destruct (domTypeIndex_first_argmax (counts img) NE) as (i & m & E & Hn & U & F).
  exists i, m.
  unfold historyRowDomType, csvDomType, printDomType, csvRow, csvDomType.
  cbn [nth_error app]. rewrite E. repeat split; auto.
Qed.

Lemma dominant_type_first_argmax_witness :
  counts {| name := "a.png"; shortName_ := "a.png"; counts := [2; 2; 0; 0]%Z;
            size := Undefined; accuracy := "70.0" |} <> [] /\
  domTypeIndex [2; 2; 0; 0]%Z = 0%Z.
Proof.
  assert (NE : counts {| name := "a.png"; shortName_ := "a.png";
                         counts := [2; 2; 0; 0]%Z;
                         size := Undefined; accuracy := "70.0" |} <> [])
    by (cbn; discriminate).
  split; [exact NE|].
  apply (dominant_type_first_argmax _ NE).
Defined.

Lemma TYPES_lookup (i : nat) :
  (i < 4)%nat ->
  exists t, nth_error TYPES i = Some t /\ at_ TYPES (Z.of_nat i) = Str t /\
            or_else (Str t) "Unknown" = Str t /\ t <> "Unknown".
Proof.
  intros H.
  destruct i as [| [| [| [| i]]]]; [| | | | lia];
    eexists; (split; [reflexivity |]); (split; [reflexivity |]);
    (split; [reflexivity | discriminate]).
Qed.

(** C10.  For a record with four counts the dominant-type index is a
    valid index into [TYPES] (never -1), so the table row never uses its
    "Unknown" fallback, and the history-table row, the image card, the
    CSV row and the print-report row all show the same label: the type
    at the first index holding the greatest count. *)
Theorem dominant_type_views_agree (src : string) (img : imgObj) :
  List.length (counts img) = 4%nat ->
  exists (i : nat) (m : Z) (t : string),
    (domTypeIndex (counts img) = Z.of_nat i /\ (i < 4)%nat /\
     nth_error TYPES i = Some t /\ t <> "Unknown") /\
    (nth_error (counts img) i = Some m /\
     (forall j c, nth_error (counts img) j = Some c -> (c <= m)%Z) /\
     (forall j c, (j < i)%nat -> nth_error (counts img) j = Some c -> (c < m)%Z)) /\
    (historyRowDomType img = Str t /\ cardDomType (counts img) = Str t /\
     csvDomType img = Str t /\ printDomType img = Str t) /\
    innerHTML (rowOf img) =
      nl ++ "    <td>" ++ name img ++ "</td>" ++
      nl ++ "    <td>" ++ t ++ "</td>" ++
      nl ++ "    <td>" ++ String_ (size img) ++ "</td>" ++
      nl ++ "    <td>" ++ accuracy img ++ "%</td>" ++
      nl ++ "  " /\
    innerHTML (cardOf src img) =
      nl ++ "        <img src=" ++ dq ++ src ++ dq ++ " alt=" ++ dq ++
            shortName_ img ++ dq ++ " />" ++
      nl ++ "        <h3>" ++ shortName_ img ++ "</h3>" ++
      nl ++ "        <p class=" ++ dq ++ "result" ++ dq ++ ">Dominant Type: <strong>" ++
            t ++ "</strong></p>" ++
      nl ++ "        <p class=" ++ dq ++ "result" ++ dq ++ ">Size: <em>" ++
            String_ (size img) ++ "</em></p>" ++
      nl ++ "        <p class=" ++ dq ++ "result accuracy" ++ dq ++ ">" ++
            accuracy img ++ "%</p>" ++
      nl ++ "        <p class=" ++ dq ++ "result" ++ dq ++ " style=" ++ dq ++
            "font-size:12px;color:#6b7280;margin-top:6px" ++ dq ++ ">Counts: " ++
            join_nums ", " (counts img) ++ "</p>" ++
      nl ++ "      " /\
    nth_error (csvRow img) 1 = Some (Str t) /\
    printRow img =
      "<tr>" ++
      nl ++ "      <td>" ++ name img ++ "</td>" ++
      nl ++ "      <td>" ++ t ++ "</td>" ++
      nl ++ "      <td>" ++ String_ (size img) ++ "</td>" ++
      nl ++ "      <td>" ++ accuracy img ++ "%</td>" ++
      nl ++ "    </tr>".
Proof.
  intros L.
  assert (NE : counts img <> []) by (destruct (counts img); [discriminate | congruence]).
  destruct (domTypeIndex_first_argmax (counts img) NE) as (i & m & E & Hn & U & F).
  assert (I : (i < 4)%nat).
  { rewrite <- L. apply nth_error_Some. congruence. }
  destruct (TYPES_lookup i I) as (t & T & A & O & K).
  assert (V : historyRowDomType img = Str t /\ cardDomType (counts img) = Str t /\
              csvDomType img = Str t /\ printDomType img = Str t).
  { unfold historyRowDomType, cardDomType, csvDomType, printDomType.
    rewrite E, A, O. auto. }
  destruct V as (V1 & V2 & V3 & V4).
  exists i, m, t. repeat split; auto.
  - unfold rowOf, historyRowHTML. cbn [innerHTML]. rewrite V1. reflexivity.
  - unfold cardOf, cardHTML. cbn [innerHTML]. rewrite V2. reflexivity.
  - unfold csvRow. rewrite V3. reflexivity.
  - unfold printRow. rewrite V4. reflexivity.
Qed.

Lemma dominant_type_views_agree_witness :
  List.length (counts {| name := "a.png"; shortName_ := "a.png";
                         counts := [1; 3; 3; 0]%Z;
                         size := Undefined; accuracy := "70.0" |}) = 4%nat /\
  exists t : string,
    historyRowDomType {| name := "a.png"; shortName_ := "a.png";
                         counts := [1; 3; 3; 0]%Z;
                         size := Undefined; accuracy := "70.0" |} = Str t /\
    cardDomType [1; 3; 3; 0]%Z = Str t.
Proof.
  split; [reflexivity|].
  destruct (dominant_type_views_agree "data:"
              {| name := "a.png"; shortName_ := "a.png"; counts := [1; 3; 3; 0]%Z;
                 size := Undefined; accuracy := "70.0" |} eq_refl)
    as (i & m & t & _ & _ & (V1 & V2 & _) & _).
  exists t. split; [exact V1 | exact V2].
Defined.

(** C7, as the claim states it, fails: with all four counts zero the
    greatest count is 0, first found at index 0, and every renderer shows
    "Fiber", not "Unknown". *)
Lemma all_zero_is_not_unknown :
  counts zero_record = [0; 0; 0; 0]%Z /\
  historyRowDomType zero_record = Str "Fiber" /\
  historyRowDomType zero_record <> Str "Unknown" /\
  cardDomType (counts zero_record) <> Str "Unknown" /\
  csvDomType zero_record <> Str "Unknown" /\
  printDomType zero_record <> Str "Unknown".
Proof. repeat split; try reflexivity; vm_compute; discriminate. Qed.

Lemma domTypeIndex_zeros (n : nat) : domTypeIndex (repeat 0%Z (S n)) = 0%Z.
Proof.
  unfold domTypeIndex. cbn [repeat]. rewrite Math_max_cons.
  assert (E : fold_left Z.max (repeat 0%Z n) 0%Z = 0%Z).
  { induction n as [| n IH]; cbn; [reflexivity | exact IH]. }
  rewrite E. reflexivity.
Qed.

(** C7, amended.  If a record's counts were all zero, every renderer
    would show the first category, "Fiber" (the first index holding the
    greatest count, 0).  The sentinel "Unknown" is what the history-table
    row shows for a record without any count, where the card, the CSV row
    and the print row have no type at all.  Neither case arises for a
    generated record, whose counts sum to at least 1. *)
Theorem all_zero_dominant_type
    (nm sh : string) (sz : value) (acc : string) (n : nat) :
  let zeros := {| name := nm; shortName_ := sh; counts := repeat 0%Z (S n);
                  size := sz; accuracy := acc |} in
  let none := {| name := nm; shortName_ := sh; counts := [];
                 size := sz; accuracy := acc |} in
  (historyRowDomType zeros = Str "Fiber" /\ cardDomType (counts zeros) = Str "Fiber" /\
   csvDomType zeros = Str "Fiber" /\ printDomType zeros = Str "Fiber") /\
  (historyRowDomType none = Str "Unknown" /\ cardDomType (counts none) = Undefined /\
   csvDomType none = Undefined /\ printDomType none = Undefined) /\
  (forall rnd es img,
     valid_random rnd -> In img (allImages (run es (init rnd))) ->
     (1 <= sum (counts img))%Z /\ counts img <> [] /\
     forall k, counts img <> repeat 0%Z k).
Proof.
  cbn zeta. split; [| split].
  - unfold historyRowDomType, cardDomType, csvDomType, printDomType.
    cbn [counts]. rewrite domTypeIndex_zeros. repeat split; reflexivity.
  - repeat split; reflexivity.
  - intros rnd es img V I.
    pose proof (store_generated rnd es V) as G.
    rewrite Forall_forall in G. destruct (G img I) as (L & _ & S & _).
    split; [exact S|]. split.
    + intros C. rewrite C in L. discriminate.
    + intros k C. rewrite C in S.
      assert (Z0 : sum (repeat 0%Z k) = 0%Z)
        by (clear; induction k as [| k IH]; cbn; [reflexivity | exact IH]).
      lia.
Qed.

(** *** The CSV document *)

Lemma csvLine_cells (img : imgObj) :
  csvLine (csvRow img) = String.concat "," (map quoted (csvCells img)).
Proof.
  unfold csvLine, csvRow, csvCells, csvField, quoted.
  cbn [map app]. rewrite !map_map. reflexivity.
Qed.

Lemma csvContent_lines (store : list imgObj) :
  csvContent store =
  String.concat nl (csvLine csvHeader :: map (fun img => csvLine (csvRow img)) store).
Proof. unfold csvContent. cbn [app map]. rewrite map_map. reflexivity. Qed.

Lemma count_lf_type (i : Z) : count_lf (String_ (at_ TYPES i)) = 0%nat.
Proof.
  unfold at_, index. destruct (i <? 0)%Z; [reflexivity|].
  destruct (Z.to_nat i) as [| [| [| [| [| n]]]]]; reflexivity.
Qed.

Lemma count_lf_csvLine (img : imgObj) :
  single_line img -> count_lf (csvLine (csvRow img)) = 0%nat.
Proof.
  intros (Hn & Hs & Ha). rewrite csvLine_cells, count_lf_concat.
  cbn [count_lf Ascii.eqb Bool.eqb]. rewrite Nat.mul_0_r, Nat.add_0_r.
  unfold csvCells. rewrite !map_app, !map_map. cbn [map app].
  repeat change (list_sum (?a :: ?l)) with (a + list_sum l)%nat.
  rewrite !count_lf_quoted, count_lf_app, Hn, Hs, Ha.
  unfold csvDomType. rewrite count_lf_type. cbn [count_lf Ascii.eqb Bool.eqb Nat.add].
  induction (counts img) as [| c cs IH]; [reflexivity|].
  cbn [map]. change (list_sum (?a :: ?l)) with (a + list_sum l)%nat.
  rewrite count_lf_quoted, count_lf_number. exact IH.
Qed.

Lemma count_lf_csvContent (store : list imgObj) :
  Forall single_line store -> count_lf (csvContent store) = List.length store.
Proof.
  intros H. rewrite csvContent_lines, count_lf_concat.
  cbn [map List.length]. rewrite length_map.
  assert (Z0 : list_sum (map count_lf (map (fun img => csvLine (csvRow img)) store)) = 0%nat).
  { induction H as [| img store Hi _ IH]; [reflexivity|].
    cbn [map]. change (list_sum (?a :: ?l)) with (a + list_sum l)%nat.
    rewrite (count_lf_csvLine img Hi), IH. reflexivity. }
  change (list_sum (?a :: ?l)) with (a + list_sum l)%nat.
  rewrite Z0. change (count_lf (csvLine csvHeader)) with 0%nat.
  change (count_lf nl) with 1%nat. lia.
Qed.

(** C3.  Exporting a store of N >= 1 records (four counts each) offers one
    file whose text is N + 1 lines joined by line feeds: the header line
    with the eight quoted names Image, DominantType, Size, Accuracy,
    Fiber, Fragment, Pellet, Microbead, then for each record, in store
    order, the line of its eight cells (name, dominant type, size,
    accuracy followed by a percent sign, the four counts) joined by
    commas, each cell between double quotes with its own double quotes
    doubled.  When no record text holds a line feed the document has
    exactly N line feeds.  A name with a double quote inside, such as My
    then a double quote then File.png, is written with that quote twice
    and one more quote on each side. *)
Theorem downloadCSV_document (p : page) :
  allImages p <> [] ->
  Forall (fun img => List.length (counts img) = 4%nat) (allImages p) ->
  let store := allImages p in
  let N := List.length store in
  exists lines : list string,
    exec downloadCSV p =
      with_downloads
        (downloads p ++ [{| fileName := "microplastics_history.csv";
                            mimeType := "text/csv;charset=utf-8;";
                            content := String.concat nl lines |}]) p /\
    List.length lines = S N /\
    nth_error lines 0 =
      Some (String.concat ","
              (map (fun f => dq ++ f ++ dq)
                   ["Image"; "DominantType"; "Size"; "Accuracy";
                    "Fiber"; "Fragment"; "Pellet"; "Microbead"])) /\
    (forall i img, nth_error store i = Some img ->
       List.length (csvCells img) = 8%nat /\
       nth_error (csvCells img) 0 = Some (name img) /\
       nth_error (csvCells img) 3 = Some (accuracy img ++ "%") /\
       nth_error lines (S i) =
         Some (String.concat "," (map quoted (csvCells img)))) /\
    (Forall single_line store -> count_lf (String.concat nl lines) = N) /\
    quoted ("My" ++ dq ++ "File.png") = dq ++ "My" ++ dq ++ dq ++ "File.png" ++ dq.
Proof.
  intros NE F4. cbn zeta.
  exists (csvLine csvHeader :: map (fun img => csvLine (csvRow img)) (allImages p)).
  rewrite <- csvContent_lines.
  split; [| split; [| split; [| split; [| split]]]].
  - rewrite downloadCSV_unfold. destruct (allImages p); [contradiction | reflexivity].
  - cbn [List.length]. rewrite length_map. reflexivity.
  - reflexivity.
  - intros i img Hi.
    rewrite Forall_forall in F4. pose proof (F4 img (nth_error_In _ _ Hi)) as L4.
    split; [| split; [| split]].
    + unfold csvCells. rewrite length_app, length_map, L4. reflexivity.
    + reflexivity.
    + reflexivity.
    + cbn [nth_error]. rewrite nth_error_map, Hi. cbn [option_map].
      rewrite csvLine_cells. reflexivity.
  - apply count_lf_csvContent.
  - reflexivity.
Qed.

Lemma downloadCSV_document_witness :
  allImages (run [Load "a.png" "data:1"; Load ("My" ++ dq ++ "File.png") "data:2"]
                 (init (fun _ => 0%Q))) <> [] /\
  Forall (fun img => List.length (counts img) = 4%nat)
    (allImages (run [Load "a.png" "data:1"; Load ("My" ++ dq ++ "File.png") "data:2"]
                    (init (fun _ => 0%Q)))) /\
  exists lines : list string,
    List.length lines = 3%nat /\
    map content
      (downloads
         (exec downloadCSV
            (run [Load "a.png" "data:1"; Load ("My" ++ dq ++ "File.png") "data:2"]
                 (init (fun _ => 0%Q))))) = [String.concat nl lines].
Proof.
  assert (NE : allImages (run [Load "a.png" "data:1"; Load ("My" ++ dq ++ "File.png") "data:2"]
                              (init (fun _ => 0%Q))) <> [])
    by (vm_compute; discriminate).
  assert (F4 : Forall (fun img => List.length (counts img) = 4%nat)
                 (allImages (run [Load "a.png" "data:1";
                                  Load ("My" ++ dq ++ "File.png") "data:2"]
                                 (init (fun _ => 0%Q)))))
    by (vm_compute; repeat constructor).
  split; [exact NE|]. split; [exact F4|].
  destruct (downloadCSV_document _ NE F4) as (lines & E & L & _).
  exists lines. split; [exact L|]. rewrite E. reflexivity.
Defined.

End PageFacts.

(** ** Further properties of the simulator and of [shortName] *)

Module SimulatorFacts.
Import Float JS Page Spec FloatFacts JSFacts PageFacts.
Local Open Scope string_scope.

Lemma length_append (a b : string) :
  String.length (a ++ b) = (String.length a + String.length b)%nat.
Proof. induction a as [| c a IH]; cbn; [reflexivity | rewrite IH; reflexivity]. Qed.

Lemma length_substring_0 (n : nat) (s : string) :
  String.length (substring 0 n s) = Nat.min n (String.length s).
Proof.
  revert s. induction n as [| n IH]; intros [| c s]; cbn; try reflexivity.
  rewrite IH. reflexivity.
Qed.

Lemma substring_0_all (n : nat) (s : string) :
  (String.length s <= n)%nat -> substring 0 n s = s.
Proof.
  revert s. induction n as [| n IH]; intros [| c s] H; cbn in *; try reflexivity; try lia.
  rewrite IH by lia. reflexivity.
Qed.

(** X1.  [shortName] never returns more than 18 characters: a name of at
    most 18 characters is returned as it is; a longer one is cut to its
    first 15 characters followed by three dots, 18 characters in all.
    A short name is its own short name. *)
Theorem shortName_bound (name : string) :
  (String.length (shortName name) <= 18)%nat /\
  ((String.length name <= 18)%nat -> shortName name = name) /\
  ((18 < String.length name)%nat ->
   shortName name = substring 0 15 name ++ "..." /\
   String.length (shortName name) = 18%nat /\
   substring 0 15 (shortName name) = substring 0 15 name) /\
  shortName (shortName name) = shortName name.
Proof.
  destruct (Nat.ltb_spec 18 (String.length name)) as [L | S].
  - assert (E1 : shortName name = substring 0 15 name ++ "...").
    { unfold shortName. destruct (Nat.ltb_spec 18 (String.length name)); [reflexivity | lia]. }
    assert (E : String.length (substring 0 15 name ++ "...") = 18%nat).
    { rewrite length_append, length_substring_0. cbn [String.length]. lia. }
    rewrite !E1.
    split; [lia |]. split; [lia |]. split.
    + intros _. split; [reflexivity |]. split; [exact E |].
      assert (P : prefix (substring 0 15 name) (substring 0 15 name ++ "...") = true).
      { clear. induction (substring 0 15 name) as [| c t IH]; cbn.
        - reflexivity.
        - destruct (ascii_dec c c); [exact IH | contradiction]. }
      apply prefix_correct in P.
      rewrite length_substring_0 in P.
      replace (Nat.min 15 (String.length name)) with 15%nat in P by lia.
      exact P.
    + unfold shortName. rewrite E. reflexivity.
  - assert (E1 : shortName name = name).
    { unfold shortName. destruct (Nat.ltb_spec 18 (String.length name)); [lia | reflexivity]. }
    rewrite !E1.
    split; [exact S |]. split; [reflexivity |]. split; [lia | reflexivity].
Qed.

(** [Math.floor(Math.random() * 4)] is one of 0..3. *)
Lemma floor_mul4_range (r : Q) :
  is_double r -> (0 <= r)%Q -> (r < 1)%Q -> (0 <= Qfloor (fmul r 4) <= 3)%Z.
Proof.
  intros D H0 H1. pose proof (double_below_one r D H1) as B.
  unfold fmul. split.
  - apply floor_nonneg.
    assert (Z0 : (fl 0 == 0)%Q) by reflexivity.
    rewrite <- Z0. apply fl_mono; lra.
  - assert (M : (fl (r * 4) <= fl ((9007199254740991 # 9007199254740992) * 4))%Q)
      by (apply fl_mono; lra).
    assert (C : (fl ((9007199254740991 # 9007199254740992) * 4) < 4)%Q)
      by (vm_compute; reflexivity).
    assert (Qfloor (fl (r * 4)) < 4)%Z; [| lia].
    apply floor_lt. change (inject_Z 4) with 4%Q. lra.
Qed.

(** X2.  The size of every simulated detection is one of the four size
    buckets, the one at the index drawn; it is never [undefined]. *)
Theorem fakeDetection_size (fileName : string) (p : page) :
  valid_random (random p) ->
  exists (k : nat) (s : string),
    (k < 4)%nat /\
    Math_floor (fmul (draw p 4) 4) = Z.of_nat k /\
    nth_error SIZE_BUCKETS k = Some s /\
    det_size (eval (fakeDetection fileName) p) = Str s.
Proof.
  intros V. unfold eval. rewrite fakeDetection_unfold. cbn [fst det_size].
  destruct (V (4 + drawn p)%nat) as (D & L & U).
  pose proof (floor_mul4_range _ D L U) as R.
  unfold Math_floor, draw.
  set (z := Qfloor (fmul (random p (4 + drawn p)) 4)) in *.
  exists (Z.to_nat z).
  assert (K : (Z.to_nat z < 4)%nat) by lia.
  assert (E : z = Z.of_nat (Z.to_nat z)) by lia.
  unfold at_, index. destruct (Z.ltb_spec z 0) as [N | _]; [lia |].
  destruct (Z.to_nat z) as [| [| [| [| k]]]]; [| | | | lia];
    eexists; (split; [lia |]); (split; [exact E |]); split; reflexivity.
Qed.

Lemma fakeDetection_size_witness :
  valid_random (random (init (fun _ => 1 # 2)%Q)) /\
  det_size (eval (fakeDetection "a.png") (init (fun _ => 1 # 2)%Q))
    = Str ("50-100 " ++ micro ++ "m").
Proof.
  assert (V : valid_random (random (init (fun _ => 1 # 2)%Q))).
  { intros i. split; [reflexivity | split; [discriminate | reflexivity]]. }
  split; [exact V |].
  destruct (fakeDetection_size "a.png" _ V) as (k & s & K & F & N & E).
  rewrite E. clear E.
  assert (k = 2%nat) by (apply Nat2Z.inj; rewrite <- F; reflexivity).
  subst k. injection N as <-. reflexivity.
Defined.

(** X3.  A call of [fakeDetection] reads the next six values of the
    random stream and nothing else: its result is the same for any file
    name and on any two pages that agree on these six values, and the
    only thing it changes is the position in the stream, by six. *)
Theorem fakeDetection_reads_six_draws (f g : string) (p q : page) :
  (forall i, (i < 6)%nat -> draw p i = draw q i) ->
  eval (fakeDetection f) p = eval (fakeDetection g) q /\
  exec (fakeDetection f) p = with_drawn (6 + drawn p) p.
Proof.
  intros H. unfold eval, exec. rewrite !fakeDetection_unfold. cbn [fst snd].
  split; [| reflexivity].
  unfold drawn_counts. cbn [map seq].
  rewrite (H 0%nat), (H 1%nat), (H 2%nat), (H 3%nat), (H 4%nat), (H 5%nat) by lia.
  reflexivity.
Qed.

Lemma fakeDetection_reads_six_draws_witness :
  (forall i, (i < 6)%nat ->
     draw (init (fun _ => 1 # 2)%Q) i =
     draw (exec downloadCSV (init (fun _ => 1 # 2)%Q)) i) /\
  eval (fakeDetection "a.png") (init (fun _ => 1 # 2)%Q) =
  eval (fakeDetection "b.png") (exec downloadCSV (init (fun _ => 1 # 2)%Q)).
Proof.
  assert (H : forall i, (i < 6)%nat ->
            draw (init (fun _ => 1 # 2)%Q) i =
            draw (exec downloadCSV (init (fun _ => 1 # 2)%Q)) i)
    by (intros i _; reflexivity).
  split; [exact H |].
  apply (fakeDetection_reads_six_draws "a.png" "b.png" _ _ H).
Defined.

(** X4.  The accuracy text is the computed value [70 + r * 29] rounded
    to the nearest tenth: the number of tenths it spells is within one
    twentieth of that value. *)
Theorem fakeDetection_accuracy_rounding (fileName : string) (p : page) :
  valid_random (random p) ->
  exists n : Z,
    det_accuracy (eval (fakeDetection fileName) p) = tenths_text n /\
    (fadd 70 (fmul (draw p 5) 29) - (1 # 20) < inject_Z n / 10)%Q /\
    (inject_Z n / 10 <= fadd 70 (fmul (draw p 5) 29) + (1 # 20))%Q.
Proof.
  intros V. unfold eval. rewrite fakeDetection_unfold. cbn [fst det_accuracy].
  destruct (V (5 + drawn p)%nat) as (_ & L & U).
  destruct (accuracy_value_range _ L U) as [A B].
  fold (draw p 5) in A, B |- *.
  set (v := fadd 70 (fmul (draw p 5) 29)) in *.
  unfold toFixed.
  assert (P : Qle_bool 0 v = true) by (apply Qle_bool_iff; lra).
  rewrite P. cbn [append].
  change (inject_Z (10 ^ Z.of_nat 1)) with 10%Q.
  set (n := Qfloor (v * 10 + (1 # 2))).
  pose proof (Qfloor_le (v * 10 + (1 # 2))) as F1.
  pose proof (Qlt_floor (v * 10 + (1 # 2))) as F2.
  fold n in F1, F2. rewrite inject_Z_plus in F2. change (inject_Z 1) with 1%Q in F2.
  assert (R : (700 <= n <= 990)%Z).
  { split.
    - change 700%Z with (Qfloor (inject_Z 700)). apply Qfloor_resp_le.
      change (inject_Z 700) with 700%Q. lra.
    - assert (n < 991)%Z; [| lia].
      apply floor_lt. change (inject_Z 991) with 991%Q. lra. }
  exists n. split; [apply fixed_layout_tenths, R |]. split.
  - apply Qlt_shift_div_l; [reflexivity | lra].
  - apply Qle_shift_div_r; [reflexivity | lra].
Qed.

Lemma fakeDetection_accuracy_rounding_witness :
  valid_random (random (init (fun _ => 1 # 2)%Q)) /\
  exists n : Z,
    det_accuracy (eval (fakeDetection "a.png") (init (fun _ => 1 # 2)%Q)) = tenths_text n /\
    (fadd 70 (fmul (draw (init (fun _ => 1 # 2)%Q) 5) 29) - (1 # 20) < inject_Z n / 10)%Q /\
    (inject_Z n / 10 <= fadd 70 (fmul (draw (init (fun _ => 1 # 2)%Q) 5) 29) + (1 # 20))%Q.
Proof.
  assert (V : valid_random (random (init (fun _ => 1 # 2)%Q))).
  { intros i. split; [reflexivity | split; [discriminate | reflexivity]]. }
  split; [exact V |].
  exact (fakeDetection_accuracy_rounding "a.png" _ V).
Defined.

End SimulatorFacts.

(** ** Further properties of runs of the page *)

Module RunFacts.
Import Float JS Page Spec RunSpec FloatFacts JSFacts PageFacts.
Local Open Scope string_scope.

Lemma handle_timers (e : event) (p : page) :
  timers (exec (handle e) p) =
  match e with
  | Load _ _ => (timers p ++ [{| callback := UpdateCharts; delay := 100 |}])%list
  | ClickDownloadCsv => timers p
  | ClickPrintReport allowed _ =>
      match allImages p with
      | [] => timers p
      | _ :: _ =>
          if allowed
          then (timers p ++ [{| callback := PrintWindow (List.length (windows p));
                                delay := 400 |}])%list
          else timers p
      end
  | Fire i =>
      match nth_error (timers p) i with
      | Some _ => remove_nth i (timers p)
      | None => timers p
      end
  end.
Proof. handler_cases e p; cbn; auto. Qed.

Lemma handle_charts (e : event) (p : page) :
  (forall i d, e = Fire i ->
     nth_error (timers p) i <> Some {| callback := UpdateCharts; delay := d |}) ->
  compositionChart (exec (handle e) p) = compositionChart p /\
  accuracyChart (exec (handle e) p) = accuracyChart p.
Proof.
  intros H. destruct e as [f r | | allowed now | i].
  - cbn [handle]. rewrite reader_onload_unfold. cbn. auto.
  - cbn [handle]. rewrite downloadCSV_unfold. destruct (allImages p); cbn; auto.
  - cbn [handle]. rewrite printReport_unfold.
    destruct (allImages p); [| destruct allowed]; cbn; auto.
  - cbn [handle]. unfold exec, fire.
    destruct (nth_error (timers p) i) as [[[| w] d] |] eqn:E; cbn; auto.
    exfalso. exact (H i d eq_refl E).
Qed.

(** X5.  The store only grows, and only by loads: whatever happens to a
    page, its records stay where they are and one record per completed
    load is added behind them, in completion order, under the file's
    name; the cards stay in place behind the new cards and the table
    rows in place before the new rows. *)
Theorem store_append_only (p : page) (es : list event) :
  exists added : list imgObj,
    allImages (run es p) = (allImages p ++ added)%list /\
    map name added = map fst (loads es) /\
    historyTableBody (run es p) = (historyTableBody p ++ map rowOf added)%list /\
    exists cards : list element,
      imageGrid (run es p) = (cards ++ imageGrid p)%list /\
      List.length cards = List.length added.
Proof.
  induction es as [| e es IH] using rev_ind.
  - exists []. cbn. rewrite !app_nil_r. repeat split. exists []. split; reflexivity.
  - destruct IH as (added & A & N & T & cards & G & L).
    rewrite run_snoc, loads_snoc.
    rewrite handle_allImages, handle_imageGrid, handle_historyTableBody.
    set (q := run es p) in *.
    destruct e as [f r | | allowed now | i];
      try (exists added; rewrite app_nil_r; repeat split; auto;
           exists cards; split; auto).
    exists (added ++ [recordOf f (eval (fakeDetection f) q)])%list.
    rewrite A, T, G, !map_app, !app_assoc. cbn [map fst name recordOf].
    rewrite N. repeat split.
    exists (cardOf r (recordOf f (eval (fakeDetection f) q)) :: cards).
    split; [reflexivity |]. rewrite length_app. cbn. lia.
Qed.

Lemma shortName_length (name : string) : (String.length (shortName name) <= 18)%nat.
Proof.
  unfold shortName. destruct (Nat.ltb_spec 18 (String.length name)) as [L | S]; [| exact S].
  rewrite SimulatorFacts.length_append, SimulatorFacts.length_substring_0.
  cbn [String.length]. lia.
Qed.

Lemma store_shortNames (rnd : nat -> Q) (es : list event) :
  Forall (fun img => shortName_ img = shortName (name img))
         (allImages (run es (init rnd))).
Proof.
  induction es as [| e es IH] using rev_ind; [constructor |].
  rewrite run_snoc, handle_allImages.
  destruct e as [f r | | allowed now | i]; auto.
  apply Forall_app. split; [exact IH |]. repeat constructor.
Qed.

Lemma In_remove_nth {A : Type} (x y : A) (l : list A) (i : nat) :
  In x l -> nth_error l i = Some y -> x <> y -> In x (remove_nth i l).
Proof.
  revert i. induction l as [| z l IH]; intros [| i] I H N; cbn in *; try contradiction.
  - injection H as ->. destruct I as [E | I]; [congruence | exact I].
  - destruct I as [E | I]; [left; exact E | right; exact (IH i I H N)].
Qed.

Lemma firstn_app_le {A : Type} (k : nat) (l m : list A) :
  (k <= List.length l)%nat -> firstn k (l ++ m) = firstn k l.
Proof.
  intros H. rewrite firstn_app.
  replace (k - List.length l)%nat with 0%nat by lia.
  cbn. apply app_nil_r.
Qed.

(** X6.  The charts never show anything but the store: at every moment
    they are the projection of the records the store held when they were
    last recomputed, a prefix of the present store; while they lag
    behind, a chart timer is pending, so once no chart timer is pending
    they show the whole store.  No label is longer than 18 characters. *)
Theorem charts_follow_store (rnd : nat -> Q) (es : list event) :
  let p := run es (init rnd) in
  let store := allImages p in
  (exists k : nat,
     (k <= List.length store)%nat /\
     compositionChart p = projection (firstn k store) /\
     accuracyChart p = line_projection (firstn k store) /\
     ((k < List.length store)%nat ->
      exists t, In t (timers p) /\ is_chart_timer t = true)) /\
  (forallb (fun t => negb (is_chart_timer t)) (timers p) = true ->
   compositionChart p = projection store /\
   accuracyChart p = line_projection store) /\
  Forall (fun l => (String.length l <= 18)%nat) (labels (compositionChart p)) /\
  Forall (fun l => (String.length l <= 18)%nat) (line_labels (accuracyChart p)).
Proof.
  cbn zeta.
  assert (I : exists k : nat,
             (k <= List.length (allImages (run es (init rnd))))%nat /\
             compositionChart (run es (init rnd)) =
               projection (firstn k (allImages (run es (init rnd)))) /\
             accuracyChart (run es (init rnd)) =
               line_projection (firstn k (allImages (run es (init rnd)))) /\
             ((k < List.length (allImages (run es (init rnd))))%nat ->
              exists t, In t (timers (run es (init rnd))) /\ is_chart_timer t = true)).
  { induction es as [| e es IH] using rev_ind.
    - exists 0%nat. cbn. repeat split; auto. lia.
    - destruct IH as (k & K & C & A & P).
      rewrite run_snoc. set (p := run es (init rnd)) in *.
      destruct e as [f r | | allowed now | i].
      + destruct (handle_charts (Load f r) p) as [-> ->]; [discriminate |].
        rewrite handle_allImages, handle_timers.
        exists k. rewrite length_app, firstn_app_le by exact K.
        split; [lia |]. split; [exact C |]. split; [exact A |].
        intros _. exists {| callback := UpdateCharts; delay := 100 |}.
        split; [apply in_or_app; right; left; reflexivity | reflexivity].
      + destruct (handle_charts ClickDownloadCsv p) as [-> ->]; [discriminate |].
        rewrite handle_allImages, handle_timers. exists k. auto.
      + destruct (handle_charts (ClickPrintReport allowed now) p) as [-> ->];
          [discriminate |].
        rewrite handle_allImages, handle_timers. exists k.
        split; [exact K |]. split; [exact C |]. split; [exact A |].
        intros L. destruct (P L) as (t & It & Ct). exists t. split; [| exact Ct].
        destruct (allImages p); [exact It |].
        destruct allowed; [apply in_or_app; left; exact It | exact It].
      + destruct (nth_error (timers p) i) as [[[| w] d] |] eqn:E.
        * destruct (fire_updateCharts p i d E) as (-> & -> & ->).
          destruct (updateCharts_run rnd es) as (C' & A'). fold p in C', A'.
          exists (List.length (allImages p)). rewrite firstn_all.
          split; [lia |]. split; [exact C' |]. split; [exact A' |]. lia.
        * destruct (handle_charts (Fire i) p) as [-> ->].
          { intros j d' [= <-]. rewrite E. discriminate. }
          rewrite handle_allImages, handle_timers, E. exists k.
          split; [exact K |]. split; [exact C |]. split; [exact A |].
          intros L. destruct (P L) as (t & It & Ct). exists t. split; [| exact Ct].
          apply (In_remove_nth t _ _ i It E).
          intros ->. discriminate.
        * destruct (handle_charts (Fire i) p) as [-> ->].
          { intros j d' [= <-]. rewrite E. discriminate. }
          rewrite handle_allImages, handle_timers, E. exists k. auto. }
  split; [exact I |].
  destruct I as (k & K & C & A & P).
  pose proof (store_shortNames rnd es) as SN.
  set (p := run es (init rnd)) in *.
  assert (LB : Forall (fun l => (String.length l <= 18)%nat)
                 (map shortName_ (firstn k (allImages p)))).
  { apply Forall_forall. intros l Hl. apply in_map_iff in Hl.
    destruct Hl as (img & <- & Hi).
    assert (Hi' : In img (allImages p)).
    { rewrite <- (firstn_skipn k (allImages p)). apply in_or_app. left. exact Hi. }
    clear Hi. rename Hi' into Hi.
    rewrite Forall_forall in SN. rewrite (SN img Hi). apply shortName_length. }
  split; [| split; [rewrite C; exact LB | rewrite A; exact LB]].
  intros NT.
  destruct (Nat.eq_dec k (List.length (allImages p))) as [-> | NE].
  - rewrite firstn_all in C, A. auto.
  - exfalso. destruct (P ltac:(lia)) as (t & It & Ct).
    rewrite forallb_forall in NT. specialize (NT t It). rewrite Ct in NT. discriminate.
Qed.

(** *** Random draws *)

Lemma handle_drawn (e : event) (p : page) :
  drawn (exec (handle e) p) =
  match e with
  | Load _ _ => (6 + drawn p)%nat
  | _ => drawn p
  end.
Proof. handler_cases e p; cbn; auto. Qed.

Lemma eval_fakeDetection_ext (f g : string) (p q : page) :
  random p = random q -> drawn p = drawn q ->
  eval (fakeDetection f) p = eval (fakeDetection g) q.
Proof.
  intros R D. unfold eval. rewrite !fakeDetection_unfold. cbn [fst].
  unfold drawn_counts, draw. rewrite R, D. reflexivity.
Qed.

(** X7.  Records never share random draws.  On a page run from its
    initial state, the stream has been read six values per stored record
    and no further, and the record at position i is the detection made
    from the six values from position 6 i on, whatever else happened on
    the page in between. *)
Theorem records_use_their_own_draws (rnd : nat -> Q) (es : list event) :
  let p := run es (init rnd) in
  drawn p = (6 * List.length (allImages p))%nat /\
  forall i img, nth_error (allImages p) i = Some img ->
    img = recordOf (name img)
            (eval (fakeDetection (name img)) (with_drawn (6 * i) (init rnd))).
Proof.
  cbn zeta. induction es as [| e es IH] using rev_ind.
  - split; [reflexivity |]. intros [| i] img H; discriminate.
  - destruct IH as (D & R). rewrite run_snoc, handle_drawn, handle_allImages.
    pose proof (run_random rnd es) as RR.
    set (p := run es (init rnd)) in *.
    destruct e as [f r | | allowed now | i0]; try (split; [exact D | exact R]).
    split; [rewrite length_app; cbn [List.length]; lia |].
    intros i img H.
    destruct (Nat.lt_ge_cases i (List.length (allImages p))) as [L | G].
    + rewrite nth_error_app1 in H by exact L. exact (R i img H).
    + rewrite nth_error_app2 in H by exact G.
      destruct (i - List.length (allImages p))%nat as [| j] eqn:E;
        [| destruct j; discriminate].
      injection H as <-. cbn [name recordOf]. f_equal.
      apply eval_fakeDetection_ext; [exact RR |].
      cbn [drawn with_drawn]. lia.
Qed.

(** *** Notices, files and windows *)

Lemma handle_alerts (e : event) (p : page) :
  alerts (exec (handle e) p) =
  match e with
  | ClickDownloadCsv =>
      match allImages p with
      | [] => (alerts p ++ ["No history to download."])%list
      | _ :: _ => alerts p
      end
  | ClickPrintReport allowed _ =>
      match allImages p with
      | [] => (alerts p ++ ["No history to print."])%list
      | _ :: _ =>
          if allowed then alerts p
          else (alerts p ++ ["Popup blocked. Allow popups and try again."])%list
      end
  | _ => alerts p
  end.
Proof. handler_cases e p; cbn; auto. Qed.

Lemma handle_downloads (e : event) (p : page) :
  downloads (exec (handle e) p) =
  match e with
  | ClickDownloadCsv =>
      match allImages p with
      | [] => downloads p
      | _ :: _ =>
          (downloads p ++ [{| fileName := "microplastics_history.csv";
                              mimeType := "text/csv;charset=utf-8;";
                              content := csvContent (allImages p) |}])%list
      end
  | _ => downloads p
  end.
Proof. handler_cases e p; cbn; rewrite ?E; auto. Qed.

Lemma handle_windows (e : event) (p : page) :
  windows (exec (handle e) p) =
  match e with
  | ClickPrintReport allowed now =>
      match allImages p with
      | [] => windows p
      | _ :: _ =>
          if allowed
          then (windows p ++ [{| features := "width=900,height=700";
                                 document := [printHTML now (allImages p)];
                                 prints := 0 |}])%list
          else windows p
      end
  | Fire i =>
      match nth_error (timers p) i with
      | Some {| callback := PrintWindow w |} =>
          update_nth w (fun win => {| features := features win;
                                      document := document win;
                                      prints := S (prints win) |}) (windows p)
      | _ => windows p
      end
  | _ => windows p
  end.
Proof. handler_cases e p; cbn; rewrite ?E; auto. Qed.

Lemma length_update_nth {A : Type} (n : nat) (f : A -> A) (l : list A) :
  List.length (update_nth n f l) = List.length l.
Proof.
  revert n. induction l as [| x l IH]; intros [| n]; cbn; auto.
Qed.

(** X8.  Every click on one of the two buttons has exactly one visible
    outcome, a notice, an offered file or a new window, and nothing else
    has any: along any run the notices and the offered files are added
    behind the earlier ones, and together with the new windows they are
    as many as the clicks.  Each notice is one of the three texts of the
    script and each file carries the fixed name and type. *)
Theorem every_click_one_outcome (p : page) (es : list event) :
  exists (notices : list string) (files : list download) (opened : nat),
    alerts (run es p) = (alerts p ++ notices)%list /\
    downloads (run es p) = (downloads p ++ files)%list /\
    List.length (windows (run es p)) = (List.length (windows p) + opened)%nat /\
    (List.length notices + List.length files + opened)%nat =
      List.length (filter is_click es) /\
    Forall (fun a => a = "No history to download." \/ a = "No history to print." \/
                     a = "Popup blocked. Allow popups and try again.") notices /\
    Forall (fun f => fileName f = "microplastics_history.csv" /\
                     mimeType f = "text/csv;charset=utf-8;") files.
Proof.
  induction es as [| e es IH] using rev_ind.
  - exists [], [], 0%nat. cbn. rewrite !app_nil_r. repeat split; auto.
  - destruct IH as (ns & fs & o & A & D & W & C & FA & FD).
    rewrite run_snoc, filter_app, length_app.
    rewrite handle_alerts, handle_downloads, handle_windows.
    set (q := run es p) in *. rewrite A, D.
    destruct e as [f r | | allowed now | i]; cbn [filter is_click List.length].
    + exists ns, fs, o. rewrite W. repeat split; auto. lia.
    + destruct (allImages q).
      * exists (ns ++ ["No history to download."])%list, fs, o.
        rewrite W, app_assoc, length_app. cbn [List.length].
        repeat split;
          try solve [auto | lia
                    | apply Forall_app; split; [assumption | repeat constructor; auto]].
      * exists ns, (fs ++ [{| fileName := "microplastics_history.csv";
                              mimeType := "text/csv;charset=utf-8;";
                              content := csvContent (i :: l) |}])%list, o.
        rewrite W, app_assoc, length_app. cbn [List.length].
        repeat split;
          try solve [auto | lia
                    | apply Forall_app; split; [assumption | repeat constructor; auto]].
    + destruct (allImages q); [| destruct allowed].
      * exists (ns ++ ["No history to print."])%list, fs, o.
        rewrite W, app_assoc, length_app. cbn [List.length].
        repeat split;
          try solve [auto | lia
                    | apply Forall_app; split; [assumption | repeat constructor; auto]].
      * exists ns, fs, (S o). rewrite length_app, W. cbn [List.length].
        repeat split; auto; lia.
      * exists (ns ++ ["Popup blocked. Allow popups and try again."])%list, fs, o.
        rewrite W, app_assoc, length_app. cbn [List.length].
        repeat split;
          try solve [auto | lia
                    | apply Forall_app; split; [assumption | repeat constructor; auto]].
    + exists ns, fs, o.
      assert (L : List.length
                    match nth_error (timers q) i with
                    | Some {| callback := PrintWindow w |} =>
                        update_nth w (fun win => {| features := features win;
                                                    document := document win;
                                                    prints := S (prints win) |})
                                   (windows q)
                    | _ => windows q
                    end = List.length (windows q)).
      { destruct (nth_error (timers q) i) as [[[| w] d] |]; auto.
        apply length_update_nth. }
      rewrite L, W. repeat split; auto. lia.
Qed.

(** *** Print windows *)

Lemma pending_prints_app (w : nat) (ts us : list timer) :
  pending_prints w (ts ++ us) = (pending_prints w ts + pending_prints w us)%nat.
Proof. unfold pending_prints. rewrite filter_app, length_app. reflexivity. Qed.

Lemma pending_prints_one (w v : nat) (d : Z) :
  pending_prints w [{| callback := PrintWindow v; delay := d |}] =
  if (v =? w)%nat then 1%nat else 0%nat.
Proof.
  unfold pending_prints. cbn. destruct (v =? w)%nat; reflexivity.
Qed.

Lemma pending_prints_remove (w i : nat) (ts : list timer) (t : timer) :
  nth_error ts i = Some t ->
  pending_prints w ts =
  (pending_prints w (remove_nth i ts) + if is_print_timer w t then 1 else 0)%nat.
Proof.
  unfold pending_prints. revert i.
  induction ts as [| u ts IH]; intros [| i] H; cbn in H; try discriminate.
  - injection H as ->. cbn [filter remove_nth].
    destruct (is_print_timer w t); cbn [List.length]; lia.
  - cbn [filter remove_nth]. specialize (IH i H).
    destruct (is_print_timer w u); cbn [List.length]; lia.
Qed.

Lemma nth_error_update_nth {A : Type} (n m : nat) (f : A -> A) (l : list A) :
  nth_error (update_nth n f l) m =
  if (m =? n)%nat then option_map f (nth_error l m) else nth_error l m.
Proof.
  revert n m. induction l as [| x l IH]; intros n m; cbn.
  - destruct (m =? n)%nat, m, n; reflexivity.
  - destruct n as [| n], m as [| m]; cbn; auto.
Qed.

Lemma nth_error_snoc {A : Type} (l : list A) (x : A) (m : nat) :
  nth_error (l ++ [x]) m =
  if (m <? List.length l)%nat then nth_error l m
  else if (m =? List.length l)%nat then Some x else None.
Proof.
  destruct (Nat.ltb_spec m (List.length l)) as [L | G].
  - apply nth_error_app1, L.
  - rewrite nth_error_app2 by exact G.
    destruct (Nat.eqb_spec m (List.length l)) as [-> | N].
    + rewrite Nat.sub_diag. reflexivity.
    + destruct (m - List.length l)%nat as [| [| k]] eqn:E; [lia | reflexivity | reflexivity].
Qed.

(** X9.  Every print window is written once and printed at most once:
    its document is the report of the records the store held at the
    click (at least one, a prefix of the present store), and either its
    print timer is still pending and [print] has not been called, or the
    timer has fired and [print] has been called exactly once.  No timer
    ever refers to a window that does not exist. *)
Theorem print_windows_once (rnd : nat -> Q) (es : list event) :
  let p := run es (init rnd) in
  forall w : nat,
    match nth_error (windows p) w with
    | Some win =>
        (prints win + pending_prints w (timers p) = 1)%nat /\
        features win = "width=900,height=700" /\
        exists (now : string) (k : nat),
          (1 <= k <= List.length (allImages p))%nat /\
          document win = [printHTML now (firstn k (allImages p))]
    | None => pending_prints w (timers p) = 0%nat
    end.
Proof.
  cbn zeta. induction es as [| e es IH] using rev_ind.
  - intros w. cbn. destruct w; reflexivity.
  - intros w. rewrite run_snoc.
    rewrite handle_windows, handle_timers, handle_allImages.
    set (p := run es (init rnd)) in *.
    destruct e as [f r | | allowed now | i].
    + specialize (IH w). rewrite pending_prints_app. cbn [pending_prints filter
        is_print_timer callback List.length]. rewrite Nat.add_0_r.
      destruct (nth_error (windows p) w) as [win |]; [| exact IH].
      destruct IH as (P & F & now & k & K & D). split; [exact P |]. split; [exact F |].
      exists now, k. rewrite length_app, firstn_app_le by lia. split; [lia | exact D].
    + exact (IH w).
    + destruct (allImages p) as [| img store] eqn:S; [exact (IH w) |].
      destruct allowed; [| exact (IH w)].
      rewrite nth_error_snoc, pending_prints_app, pending_prints_one.
      destruct (Nat.ltb_spec w (List.length (windows p))) as [L | G].
      * specialize (IH w).
        destruct (nth_error (windows p) w) as [win |] eqn:N;
          [| apply nth_error_None in N; lia].
        destruct (Nat.eqb_spec (List.length (windows p)) w) as [C | _]; [lia |].
        rewrite Nat.add_0_r. exact IH.
      * specialize (IH w).
        assert (N : nth_error (windows p) w = None) by (apply nth_error_None; exact G).
        rewrite N in IH.
        destruct (Nat.eqb_spec w (List.length (windows p))) as [-> | NE].
        -- rewrite Nat.eqb_refl. cbn [prints features document].
           split; [lia |]. split; [reflexivity |].
           exists now, (List.length (img :: store)).
           rewrite firstn_all. split; [cbn [List.length]; lia | reflexivity].
        -- destruct (Nat.eqb_spec (List.length (windows p)) w) as [C | _]; [lia |].
           lia.
    + destruct (nth_error (timers p) i) as [[[| v] d] |] eqn:T.
      * specialize (IH w).
        rewrite (pending_prints_remove w i _ _ T) in IH.
        cbn [is_print_timer callback] in IH. rewrite Nat.add_0_r in IH. exact IH.
      * pose proof (IH v) as IHv. specialize (IH w).
        rewrite (pending_prints_remove w i _ _ T) in IH.
        rewrite (pending_prints_remove v i _ _ T) in IHv.
        cbn [is_print_timer callback] in IH, IHv. rewrite Nat.eqb_refl in IHv.
        rewrite nth_error_update_nth.
        destruct (Nat.eqb_spec w v) as [-> | NE].
        -- rewrite Nat.eqb_refl in IH.
           destruct (nth_error (windows p) v) as [win |]; [| lia].
           cbn [option_map prints features document].
           destruct IH as (P & F & D). split; [lia |]. split; [exact F | exact D].
        -- destruct (Nat.eqb_spec v w) as [C | _]; [congruence |].
           rewrite Nat.add_0_r in IH. exact IH.
      * exact (IH w).
Qed.

End RunFacts.

(** ** Further properties of the renderers and of the CSV export *)

Module ExportFacts.
Import Float JS Page Spec Csv FloatFacts JSFacts PageFacts.
Local Open Scope string_scope.

Lemma at_TYPES_outside (i : Z) : (i < 0 \/ 4 <= i)%Z -> at_ TYPES i = Undefined.
Proof.
  intros H. unfold at_, index.
  destruct (Z.ltb_spec i 0) as [N | P]; [reflexivity |].
  assert (E : nth_error TYPES (Z.to_nat i) = None)
    by (apply nth_error_None; cbn; lia).
  rewrite E. reflexivity.
Qed.

(** X10.  The dominant-type index always lies between -1 and the last
    index of the counts, and is -1 exactly for a record without counts.
    When it has no entry in [TYPES] (no counts, or the greatest count
    first found beyond the fourth position) the history-table row shows
    "Unknown" while the card, the CSV row and the print row, which have
    no fallback, show the text undefined. *)
Theorem dominant_type_without_entry (img : imgObj) :
  let i := domTypeIndex (counts img) in
  (-1 <= i < Z.of_nat (List.length (counts img)))%Z /\
  (i = (-1)%Z <-> counts img = []) /\
  ((i < 0 \/ 4 <= i)%Z ->
   historyRowDomType img = Str "Unknown" /\
   String_ (cardDomType (counts img)) = "undefined" /\
   String_ (csvDomType img) = "undefined" /\
   String_ (printDomType img) = "undefined").
Proof.
  cbn zeta.
  assert (B : (-1 <= domTypeIndex (counts img) < Z.of_nat (List.length (counts img)))%Z /\
              (domTypeIndex (counts img) = (-1)%Z <-> counts img = [])).
  { destruct (counts img) as [| c cs] eqn:E.
    - cbn. split; [lia | split; reflexivity].
    - destruct (first_argmax (c :: cs) ltac:(discriminate)) as (i & m & Ei & Hn & _).
      unfold domTypeIndex. rewrite Ei.
      assert (i < List.length (c :: cs))%nat by (apply nth_error_Some; congruence).
      split; [lia |]. split; [lia | discriminate]. }
  destruct B as [B1 B2]. split; [exact B1 |]. split; [exact B2 |].
  intros O. unfold historyRowDomType, cardDomType, csvDomType, printDomType.
  rewrite (at_TYPES_outside _ O). repeat split.
Qed.

(** *** Reading the document back *)

Lemma append_assoc (a b c : string) : (a ++ b) ++ c = a ++ (b ++ c).
Proof. induction a as [| x a IH]; cbn; [reflexivity | rewrite IH; reflexivity]. Qed.

Lemma append_empty_r (a : string) : a ++ "" = a.
Proof. induction a as [| x a IH]; cbn; [reflexivity | rewrite IH; reflexivity]. Qed.

Lemma steps_app (a b : string) (st : reader) :
  steps (a ++ b) st =
  match steps a st with
  | Some st' => steps b st'
  | None => None
  end.
Proof.
  revert st. induction a as [| c a IH]; intros st; cbn; [reflexivity |].
  destruct (step st c); [apply IH | reflexivity].
Qed.

Lemma steps_double_quotes (f : string) (st : reader) :
  at_mode st = Quoted ->
  steps (double_quotes f) st =
  Some {| at_mode := Quoted; field := field st ++ f; row := row st; rows := rows st |}.
Proof.
  revert st. induction f as [| c f IH]; intros [m fl r rs] M; cbn in M; subst m.
  - cbn. rewrite append_empty_r. reflexivity.
  - cbn [double_quotes]. destruct (Ascii.eqb_spec c "034"%char) as [-> | N].
    + cbn [steps step at_mode field row rows Ascii.eqb Bool.eqb].
      rewrite IH by reflexivity. cbn [field row rows].
      rewrite append_assoc. reflexivity.
    + cbn [steps]. unfold step at 1. cbn [at_mode field row rows].
      destruct (Ascii.eqb_spec c "034"%char) as [C | _]; [contradiction |].
      rewrite IH by reflexivity. cbn [field row rows].
      rewrite append_assoc. reflexivity.
Qed.

Lemma steps_quoted (f : string) (st : reader) :
  at_mode st = FieldStart ->
  steps (quoted f) st =
  Some {| at_mode := QuoteSeen; field := f; row := row st; rows := rows st |}.
Proof.
  destruct st as [m fl r rs]. cbn. intros ->.
  unfold quoted, dq. cbn [append steps step at_mode Ascii.eqb Bool.eqb row rows].
  rewrite steps_app, steps_double_quotes by reflexivity.
  reflexivity.
Qed.

Lemma steps_line (fs : list string) (f : string) (st : reader) :
  at_mode st = FieldStart ->
  exists st',
    steps (String.concat "," (map quoted (f :: fs))) st = Some st' /\
    at_mode st' = QuoteSeen /\ rows st' = rows st /\
    (row st' ++ [field st'] = row st ++ f :: fs)%list.
Proof.
  revert f st. induction fs as [| g fs IH]; intros f st M.
  - cbn [map String.concat]. rewrite steps_quoted by exact M.
    eexists. split; [reflexivity |]. cbn. auto.
  - change (String.concat "," (map quoted (f :: g :: fs)))
      with (quoted f ++ "," ++ String.concat "," (map quoted (g :: fs))).
    rewrite steps_app, steps_quoted by exact M.
    cbn [append steps step at_mode field row rows Ascii.eqb Bool.eqb].
    destruct (IH g {| at_mode := FieldStart; field := "";
                      row := (row st ++ [f])%list; rows := rows st |} eq_refl)
      as (st' & S & Q & R & E).
    exists st'. split; [exact S |]. split; [exact Q |]. split; [exact R |].
    rewrite E. cbn [row]. rewrite <- app_assoc. reflexivity.
Qed.

Lemma steps_document (rs : list (list string)) (r : list string) (st : reader) :
  at_mode st = FieldStart -> row st = [] ->
  Forall (fun x => x <> []) (r :: rs) ->
  exists st',
    steps (String.concat nl (map (fun x => String.concat "," (map quoted x)) (r :: rs))) st
      = Some st' /\
    at_mode st' = QuoteSeen /\
    (rows st' ++ [row st' ++ [field st']] = rows st ++ r :: rs)%list.
Proof.
  revert r st. induction rs as [| r2 rs IH]; intros r st M R0 NE.
  - cbn [map String.concat].
    destruct r as [| f fs]; [inversion NE; congruence |].
    destruct (steps_line fs f st M) as (st' & S & Q & R & E).
    exists st'. split; [exact S |]. split; [exact Q |].
    rewrite R, E, R0. reflexivity.
  - change (String.concat nl (map (fun x => String.concat "," (map quoted x)) (r :: r2 :: rs)))
      with (String.concat "," (map quoted r) ++ nl ++
            String.concat nl (map (fun x => String.concat "," (map quoted x)) (r2 :: rs))).
    inversion NE as [| ? ? Hr NE']; subst.
    destruct r as [| f fs]; [congruence |].
    destruct (steps_line fs f st M) as (st1 & S & Q & R & E).
    rewrite steps_app, S.
    unfold nl. cbn [append steps]. unfold step at 1. rewrite Q.
    cbn [Ascii.eqb Bool.eqb].
    destruct (IH r2 {| at_mode := FieldStart; field := ""; row := [];
                       rows := (rows st1 ++ [row st1 ++ [field st1]])%list |}
                 eq_refl eq_refl NE') as (st' & S' & Q' & E').
    exists st'. split; [exact S' |]. split; [exact Q' |].
    rewrite E'. cbn [rows]. rewrite R, E, R0. cbn [app].
    rewrite <- app_assoc. reflexivity.
Qed.

(** X11.  The CSV document can be read back without loss: a reader of
    quoted, comma-separated, line-separated fields recovers from it
    exactly the header names and, record by record in store order, the
    eight cell texts, whatever characters (commas, double quotes, line
    feeds) the names hold.  So two stores export to the same document
    only if their cells are the same. *)
Theorem csv_reads_back (store : list imgObj) :
  parse (csvContent store) =
    Some (["Image"; "DominantType"; "Size"; "Accuracy";
           "Fiber"; "Fragment"; "Pellet"; "Microbead"] :: map csvCells store) /\
  forall store', csvContent store = csvContent store' ->
                 map csvCells store = map csvCells store'.
Proof.
  assert (P : forall s, parse (csvContent s) =
                Some (["Image"; "DominantType"; "Size"; "Accuracy";
                       "Fiber"; "Fragment"; "Pellet"; "Microbead"] :: map csvCells s)).
  { intros s. unfold parse.
    assert (E : csvContent s =
                String.concat nl
                  (map (fun x => String.concat "," (map quoted x))
                       (map String_ csvHeader :: map (map String_) (map csvRow s)))).
    { change (map String_ csvHeader :: map (map String_) (map csvRow s))
        with (map (map String_) (csvHeader :: map csvRow s)).
      unfold csvContent. cbn [app]. rewrite map_map. f_equal.
      apply map_ext. intros r. unfold csvLine, csvField, quoted.
      rewrite map_map. reflexivity. }
    rewrite E.
    destruct (steps_document (map (map String_) (map csvRow s))
                (map String_ csvHeader)
                {| at_mode := FieldStart; field := ""; row := []; rows := [] |}
                eq_refl eq_refl) as (st' & S & Q & C).
    { constructor; [discriminate |].
      apply Forall_forall. intros r Hr. apply in_map_iff in Hr.
      destruct Hr as (r0 & <- & Hr0). apply in_map_iff in Hr0.
      destruct Hr0 as (img & <- & _). discriminate. }
    rewrite S, Q, C. cbn [rows app]. f_equal. f_equal.
    rewrite map_map. apply map_ext. intros img.
    unfold csvRow, csvCells. cbn [map app]. rewrite map_map. reflexivity. }
  split; [apply P |].
  intros store' E. pose proof (P store) as P1. pose proof (P store') as P2.
  rewrite E in P1. rewrite P1 in P2. injection P2 as P2. exact P2.
Qed.

End ExportFacts.

(** ** Properties of the upload handler *)

Module UploadFacts.
Import Float JS Page Spec Upload PageFacts.
Local Open Scope string_scope.

Lemma urun_snoc (es : list uevent) (e : uevent) (b : browser) :
  urun (es ++ [e]) b = uhandle e (urun es b).
Proof. unfold urun. rewrite fold_left_app. reflexivity. Qed.

Lemma selected_snoc (es : list uevent) (e : uevent) :
  selected (es ++ [e]) =
  (selected es ++ match e with Select files => files | _ => [] end)%list.
Proof.
  unfold selected. rewrite flat_map_app. cbn [flat_map].
  rewrite app_nil_r. reflexivity.
Qed.

Lemma filter_remove_nth {A : Type} (f : A -> bool) (l : list A) (i : nat) (x : A) :
  nth_error l i = Some x ->
  Permutation (filter f l)
              (if f x then x :: filter f (remove_nth i l) else filter f (remove_nth i l)).
Proof.
  revert i. induction l as [| y l IH]; intros [| i] H; cbn in H; try discriminate.
  - injection H as ->. cbn [filter remove_nth]. destruct (f x); apply Permutation_refl.
  - cbn [filter remove_nth]. specialize (IH i H).
    destruct (f y), (f x); auto.
    eapply perm_trans; [apply perm_skip, IH | apply perm_swap].
Qed.

(** X12.  No selected file is lost or taken twice.  After any sequence
    of selections, read completions, clicks and timers, the names of the
    stored records together with the names of the files still being read
    (those whose read will succeed) are, up to order, the names of all
    the readable files selected so far; once no read is in flight, the
    store holds exactly one record per readable selected file.  The
    input's selection is empty after every event. *)
Theorem every_selected_file_is_stored (rnd : nat -> Q) (es : list uevent) :
  let b := urun es (start rnd) in
  input_files b = [] /\
  Permutation
    (map name (allImages (pg b)) ++ map file_name (filter readable (reading b)))
    (map file_name (filter readable (selected es))) /\
  (reading b = [] ->
   Permutation (map name (allImages (pg b)))
               (map file_name (filter readable (selected es))) /\
   List.length (allImages (pg b)) = List.length (filter readable (selected es))).
Proof.
  cbn zeta.
  assert (I : input_files (urun es (start rnd)) = [] /\
              Permutation
                (map name (allImages (pg (urun es (start rnd)))) ++
                 map file_name (filter readable (reading (urun es (start rnd)))))
                (map file_name (filter readable (selected es)))).
  { induction es as [| e es IH] using rev_ind; [split; [reflexivity | apply Permutation_refl] |].
    destruct IH as (IF & IP). rewrite urun_snoc, selected_snoc.
    set (b := urun es (start rnd)) in *.
    destruct e as [files | i | | allowed now | i]; cbn [uhandle].
    - unfold fileInput_change. cbn [input_files pg reading].
      destruct files as [| f files]; cbn [List.length Nat.eqb pg input_files reading].
      + rewrite app_nil_r. split; [reflexivity | exact IP].
      + split; [reflexivity |].
        rewrite !filter_app, !map_app, app_assoc.
        apply Permutation_app_tail. exact IP.
    - rewrite app_nil_r. unfold read_end.
      destruct (nth_error (reading b) i) as [f |] eqn:E; [| split; assumption].
      pose proof (filter_remove_nth readable _ _ _ E) as PR.
      unfold readable at 2 in PR.
      destruct (file_url f) as [url |]; cbn [on_page pg input_files reading].
      + split; [exact IF |].
        change (exec (reader_onload (file_name f) url) (pg b))
          with (exec (handle (Load (file_name f) url)) (pg b)).
        rewrite handle_allImages, map_app. cbn [map name recordOf].
        eapply perm_trans; [| exact IP].
        rewrite <- app_assoc. apply Permutation_app_head. cbn [app].
        apply Permutation_sym.
        apply (Permutation_map file_name) in PR. exact PR.
      + split; [exact IF |].
        eapply perm_trans; [| exact IP].
        apply Permutation_app_head, Permutation_sym.
        apply (Permutation_map file_name) in PR. exact PR.
    - rewrite app_nil_r. cbn [on_page pg input_files reading].
      change (exec downloadCSV (pg b)) with (exec (handle ClickDownloadCsv) (pg b)).
      rewrite handle_allImages. split; assumption.
    - rewrite app_nil_r. cbn [on_page pg input_files reading].
      change (exec (printReport allowed now) (pg b))
        with (exec (handle (ClickPrintReport allowed now)) (pg b)).
      rewrite handle_allImages. split; assumption.
    - rewrite app_nil_r. cbn [on_page pg input_files reading].
      change (exec (fire i) (pg b)) with (exec (handle (Fire i)) (pg b)).
      rewrite handle_allImages. split; assumption. }
  destruct I as (IF & IP). split; [exact IF |]. split; [exact IP |].
  intros R. rewrite R in IP. cbn [filter map] in IP. rewrite app_nil_r in IP.
  split; [exact IP |].
  apply Permutation_length in IP. rewrite !length_map in IP. exact IP.
Qed.

End UploadFacts.

(** ** Properties of the tab navigation *)

Module NavFacts.
Import JS Page Nav RunFacts.
Local Open Scope string_scope.

Lemma existsb_filter_out (tok : string) (l : list string) :
  existsb (String.eqb tok) (filter (fun c => negb (String.eqb tok c)) l) = false.
Proof.
  induction l as [| c l IH]; [reflexivity |]. cbn [filter].
  destruct (String.eqb tok c) eqn:E; cbn [negb existsb]; [exact IH |].
  rewrite E. exact IH.
Qed.

Lemma existsb_filter_other (tok other : string) (l : list string) :
  String.eqb other tok = false ->
  existsb (String.eqb tok) (filter (fun c => negb (String.eqb other c)) l) =
  existsb (String.eqb tok) l.
Proof.
  intros N. induction l as [| c l IH]; [reflexivity |]. cbn [filter existsb].
  destruct (String.eqb other c) eqn:E; cbn [negb existsb].
  - apply String.eqb_eq in E. subst c.
    rewrite String.eqb_sym, N. exact IH.
  - rewrite IH. reflexivity.
Qed.

Lemma frame_add_early (n : node) :
  node_id (classList_add "active" n) = node_id n /\
  in_nav (classList_add "active" n) = in_nav n /\
  data_tab (classList_add "active" n) = data_tab n.
Proof. unfold classList_add. destruct (contains "active" n); repeat split. Qed.

Lemma active_remove (n : node) : active (classList_remove "active" n) = false.
Proof.
  unfold active, contains, classList_remove, with_classList. cbn [classList].
  apply existsb_filter_out.
Qed.

Lemma active_add (n : node) : active (classList_add "active" n) = true.
Proof.
  unfold active, classList_add. destruct (contains "active" n) eqn:E; [exact E |].
  unfold contains, with_classList. cbn [classList]. rewrite existsb_app.
  cbn [existsb]. rewrite String.eqb_refl. rewrite orb_true_r. reflexivity.
Qed.

Lemma section_remove (n : node) : section (classList_remove "active" n) = section n.
Proof.
  unfold section, contains, classList_remove, with_classList. cbn [classList].
  apply existsb_filter_other. reflexivity.
Qed.

Lemma section_add (n : node) : section (classList_add "active" n) = section n.
Proof.
  unfold section, classList_add. destruct (contains "active" n); [reflexivity |].
  unfold contains, with_classList. cbn [classList]. rewrite existsb_app.
  cbn [existsb].
  replace ("tab-content" =? "active")%string with false by reflexivity.
  rewrite !orb_false_r. reflexivity.
Qed.

Lemma filter_twice (l : list string) :
  filter (fun c => negb (String.eqb "active" c))
         (filter (fun c => negb (String.eqb "active" c)) l) =
  filter (fun c => negb (String.eqb "active" c)) l.
Proof.
  induction l as [| c l IH]; [reflexivity |]. cbn [filter].
  destruct (String.eqb "active" c) eqn:E; cbn [negb filter]; [exact IH |].
  rewrite E. cbn [negb]. rewrite IH. reflexivity.
Qed.

Lemma other_remove (n : node) : other_classes (classList_remove "active" n) = other_classes n.
Proof.
  unfold other_classes, classList_remove, with_classList. cbn [classList].
  apply filter_twice.
Qed.

Lemma other_add (n : node) : other_classes (classList_add "active" n) = other_classes n.
Proof.
  unfold other_classes, classList_add. destruct (contains "active" n); [reflexivity |].
  unfold with_classList. cbn [classList]. rewrite filter_app.
  cbn [filter]. rewrite String.eqb_refl. cbn [negb]. apply app_nil_r.
Qed.

Lemma remove_remove (n : node) :
  classList_remove "active" (classList_remove "active" n) = classList_remove "active" n.
Proof.
  unfold classList_remove, with_classList. cbn [classList node_id in_nav data_tab].
  rewrite filter_twice. reflexivity.
Qed.

Lemma remove_add (n : node) :
  classList_remove "active" (classList_add "active" n) = classList_remove "active" n.
Proof.
  pose proof (other_add n) as O. unfold other_classes in O.
  destruct (frame_add_early n) as (I & V & T).
  unfold classList_remove, with_classList. rewrite O, I, V, T. reflexivity.
Qed.

Lemma add_add (n : node) :
  classList_add "active" (classList_add "active" n) = classList_add "active" n.
Proof.
  pose proof (active_add n) as A. unfold active in A.
  unfold classList_add at 1. rewrite A. reflexivity.
Qed.

Lemma frame_remove (n : node) :
  node_id (classList_remove "active" n) = node_id n /\
  in_nav (classList_remove "active" n) = in_nav n /\
  data_tab (classList_remove "active" n) = data_tab n.
Proof. repeat split. Qed.

Lemma frame_add (n : node) :
  node_id (classList_add "active" n) = node_id n /\
  in_nav (classList_add "active" n) = in_nav n /\
  data_tab (classList_add "active" n) = data_tab n.
Proof. exact (frame_add_early n). Qed.

(** The listener leaves everything but the token "active" alone. *)
Lemma settle_frame (k : nat) (t : option nat) (j : nat) (n : node) :
  node_id (settle k t j n) = node_id n /\
  in_nav (settle k t j n) = in_nav n /\
  data_tab (settle k t j n) = data_tab n /\
  section (settle k t j n) = section n /\
  other_classes (settle k t j n) = other_classes n.
Proof.
  unfold settle.
  destruct (in_nav n) eqn:N, (j =? k)%nat, t as [t' |];
    try destruct (j =? t')%nat;
    rewrite ?section_add, ?section_remove;
    destruct (section n) eqn:S;
    repeat match goal with
      | |- context [classList_add "active" ?x] =>
          destruct (frame_add x) as (-> & -> & ->);
          rewrite ?(section_add x), ?(other_add x)
      | |- context [classList_remove "active" ?x] =>
          destruct (frame_remove x) as (-> & -> & ->);
          rewrite ?(section_remove x), ?(other_remove x)
      end; auto.
Qed.

Lemma find_index_map {A : Type} (f : A -> bool) (g : A -> A) (l : list A) :
  (forall x, f (g x) = f x) -> find_index f (map g l) = find_index f l.
Proof.
  intros H. induction l as [| x l IH]; cbn; [reflexivity |].
  rewrite H, IH. reflexivity.
Qed.

Lemma find_index_update_nth {A : Type} (f : A -> bool) (g : A -> A) (l : list A) (k : nat) :
  (forall x, f (g x) = f x) -> find_index f (update_nth k g l) = find_index f l.
Proof.
  intros H. revert k. induction l as [| x l IH]; intros [| k]; cbn; try reflexivity.
  - rewrite H. reflexivity.
  - rewrite IH. reflexivity.
Qed.

Lemma getElementById_settled (d : document) (key : string) (k : nat) :
  getElementById
    (map (fun sec => if contains "tab-content" sec
                     then classList_remove "active" sec else sec)
       (update_nth k (classList_add "active")
          (map (fun a => if in_nav a then classList_remove "active" a else a) d)))
    key = getElementById d key.
Proof.
  unfold getElementById. destruct (key =? "")%string; [reflexivity |].
  rewrite find_index_map, find_index_update_nth, find_index_map; try reflexivity.
  - intros x. destruct (in_nav x); reflexivity.
  - intros x. destruct (frame_add x) as (-> & _). reflexivity.
  - intros x. destruct (contains "tab-content" x); reflexivity.
Qed.

(** The listener, element by element. *)
Lemma on_click_nth (k : nat) (link : node) (d : document) (j : nat) :
  nth_error (doc (on_click k link d)) j =
    option_map (settle k (getElementById d (tab_key link)) j) (nth_error d j) /\
  thrown (on_click k link d) =
    match getElementById d (tab_key link) with Some _ => false | None => true end.
Proof.
  unfold on_click. rewrite getElementById_settled.
  assert (E : nth_error
                (map (fun sec => if contains "tab-content" sec
                                 then classList_remove "active" sec else sec)
                   (update_nth k (classList_add "active")
                      (map (fun a => if in_nav a then classList_remove "active" a else a) d)))
                j = option_map (settle k None j) (nth_error d j)).
  { rewrite nth_error_map, nth_error_update_nth, nth_error_map.
    unfold settle, section.
    destruct (nth_error d j) as [n |]; destruct (j =? k)%nat; reflexivity. }
  destruct (getElementById d (tab_key link)) as [t |]; cbn [doc thrown].
  - split; [| reflexivity].
    rewrite nth_error_update_nth, E. unfold settle.
    destruct (nth_error d j) as [n |]; destruct (j =? t)%nat; reflexivity.
  - split; [exact E | reflexivity].
Qed.

Lemma in_nav_add (n : node) : in_nav (classList_add "active" n) = in_nav n.
Proof. apply frame_add. Qed.

Lemma in_nav_remove (n : node) : in_nav (classList_remove "active" n) = in_nav n.
Proof. reflexivity. Qed.

Lemma settle_twice (k : nat) (t : option nat) (j : nat) (n : node) :
  settle k t j (settle k t j n) = settle k t j n.
Proof.
  unfold settle.
  destruct (in_nav n) eqn:N, (j =? k)%nat, t as [t' |];
    try destruct (j =? t')%nat;
    destruct (section n) eqn:S;
    repeat (rewrite ?in_nav_add, ?in_nav_remove, ?section_add, ?section_remove, ?N, ?S);
    rewrite ?remove_add, ?remove_remove, ?add_add, ?remove_add, ?remove_remove;
    reflexivity.
Qed.

Lemma getElementById_on_click (k : nat) (link : node) (d : document) (key : string) :
  getElementById (doc (on_click k link d)) key = getElementById d key.
Proof.
  unfold on_click.
  destruct (getElementById _ (tab_key link)) as [t |]; cbn [doc];
    [| apply getElementById_settled].
  rewrite <- (getElementById_settled d key k).
  unfold getElementById at 1 2. destruct (key =? "")%string; [reflexivity |].
  apply find_index_update_nth.
  intros x. destruct (frame_add x) as (-> & _). reflexivity.
Qed.

Lemma length_on_click (k : nat) (link : node) (d : document) :
  List.length (doc (on_click k link d)) = List.length d.
Proof.
  unfold on_click. destruct (getElementById _ _); cbn [doc];
    rewrite ?length_update_nth, length_map, length_update_nth, length_map; reflexivity.
Qed.

Lemma find_index_Some {A : Type} (f : A -> bool) (l : list A) (i : nat) :
  find_index f l = Some i -> exists x, nth_error l i = Some x /\ f x = true.
Proof.
  revert i. induction l as [| y l IH]; intros i H; cbn in H; [discriminate |].
  destruct (f y) eqn:F.
  - injection H as <-. exists y. split; [reflexivity | exact F].
  - destruct (find_index f l) as [j |]; cbn in H; [| discriminate].
    injection H as <-. apply (IH j eq_refl).
Qed.

(** What a click does to each element when navigation links and tab
    sections are different elements. *)
Lemma click_elements (d : document) (k : nat) (link : node) :
  nth_error d k = Some link -> in_nav link = true ->
  (forall n, In n d -> in_nav n = true -> section n = false) ->
  (forall t x, getElementById d (tab_key link) = Some t ->
               nth_error d t = Some x -> in_nav x = false) ->
  forall j n, nth_error d j = Some n ->
    exists n',
      nth_error (doc (click k d)) j = Some n' /\
      (node_id n' = node_id n /\ in_nav n' = in_nav n /\ data_tab n' = data_tab n /\
       other_classes n' = other_classes n) /\
      (in_nav n = true -> (active n' = true <-> j = k)) /\
      (section n = true ->
       (active n' = true <-> getElementById d (tab_key link) = Some j)) /\
      (in_nav n = false -> section n = false ->
       getElementById d (tab_key link) <> Some j -> n' = n).
Proof.
  intros Hk Nk H2 H3 j n Hj.
  unfold click. rewrite Hk, Nk.
  destruct (on_click_nth k link d j) as [E _]. rewrite Hj in E. cbn [option_map] in E.
  remember (getElementById d (tab_key link)) as t eqn:Et.
  exists (settle k t j n). split; [exact E |].
  destruct (settle_frame k t j n) as (F1 & F2 & F3 & _ & F5).
  split; [auto |].
  assert (JK : in_nav n = false -> (j =? k)%nat = false).
  { intros NN. destruct (Nat.eqb_spec j k) as [-> | _]; [| reflexivity].
    rewrite Hk in Hj. injection Hj as <-. congruence. }
  assert (JT : in_nav n = true -> forall t', t = Some t' -> (j =? t')%nat = false).
  { intros NN t' Et'. destruct (Nat.eqb_spec j t') as [-> | _]; [| reflexivity].
    pose proof (H3 t' n Et' Hj). congruence. }
  split; [| split].
  - intros NN. pose proof (H2 n (nth_error_In _ _ Hj) NN) as SN.
    unfold settle. rewrite NN.
    destruct (Nat.eqb_spec j k) as [-> | NE].
    + rewrite section_add, section_remove, SN.
      destruct t as [t' |].
      * rewrite (JT NN t' eq_refl), active_add. split; auto.
      * rewrite active_add. split; auto.
    + rewrite section_remove, SN.
      destruct t as [t' |].
      * rewrite (JT NN t' eq_refl), active_remove. split; [discriminate | contradiction].
      * rewrite active_remove. split; [discriminate | contradiction].
  - intros SN.
    assert (NN : in_nav n = false).
    { destruct (in_nav n) eqn:NN; [| reflexivity].
      pose proof (H2 n (nth_error_In _ _ Hj) NN). congruence. }
    unfold settle. rewrite NN, (JK NN), SN.
    destruct t as [t' |].
    + destruct (Nat.eqb_spec j t') as [-> | NE].
      * rewrite active_add. split; auto.
      * rewrite active_remove. split; [discriminate | intros [= C]; congruence].
    + rewrite active_remove. split; discriminate.
  - intros NN SN NT. unfold settle. rewrite NN, (JK NN), SN.
    destruct t as [t' |]; [| reflexivity].
    destruct (Nat.eqb_spec j t') as [-> | NE]; [congruence | reflexivity].
Qed.

(** X13.  Switching tabs.  When the navigation links and the tab
    sections are different elements and the clicked link names a tab
    section, the click completes, and afterwards the clicked link is the
    only active link and the named section the only active section; no
    element changes its ID, attributes or any class but "active", and
    every other element is untouched. *)
Theorem tab_switch (d : document) (k t : nat) (link target : node) :
  nth_error d k = Some link -> in_nav link = true ->
  (forall n, In n d -> in_nav n = true -> section n = false) ->
  getElementById d (tab_key link) = Some t ->
  nth_error d t = Some target -> section target = true ->
  thrown (click k d) = false /\
  List.length (doc (click k d)) = List.length d /\
  forall j n, nth_error d j = Some n ->
    exists n',
      nth_error (doc (click k d)) j = Some n' /\
      (node_id n' = node_id n /\ in_nav n' = in_nav n /\ data_tab n' = data_tab n /\
       other_classes n' = other_classes n) /\
      (in_nav n = true -> (active n' = true <-> j = k)) /\
      (section n = true -> (active n' = true <-> j = t)) /\
      (in_nav n = false -> section n = false -> n' = n).
Proof.
  intros Hk Nk H2 Ht Hx Sx.
  assert (H3 : forall t' x, getElementById d (tab_key link) = Some t' ->
                            nth_error d t' = Some x -> in_nav x = false).
  { intros t' x Et' Hx'. rewrite Ht in Et'. injection Et' as <-.
    rewrite Hx in Hx'. injection Hx' as <-.
    destruct (in_nav target) eqn:NN; [| reflexivity].
    pose proof (H2 target (nth_error_In _ _ Hx) NN). congruence. }
  split; [| split].
  - unfold click. rewrite Hk, Nk.
    destruct (on_click_nth k link d 0) as [_ ->]. rewrite Ht. reflexivity.
  - unfold click. rewrite Hk, Nk. apply length_on_click.
  - intros j n Hj.
    destruct (click_elements d k link Hk Nk H2 H3 j n Hj) as (n' & E & F & A & S & O).
    exists n'. split; [exact E |]. split; [exact F |]. split; [exact A |].
    rewrite Ht in S, O. split.
    + intros SN. rewrite (S SN). split; [intros [= ->]; reflexivity | intros ->; reflexivity].
    + intros NN SN. apply (O NN SN). intros [= <-].
      rewrite Hx in Hj. injection Hj as <-. congruence.
Qed.

Lemma two_tabs_disjoint (n : node) :
  In n dangling_tab -> in_nav n = true -> section n = false.
Proof.
  intros [<- | [<- | [<- | [<- | [<- | []]]]]]; cbn; auto; discriminate.
Qed.

Lemma tab_switch_witness :
  (nth_error two_tabs 1 =
     Some {| node_id := None; in_nav := true; data_tab := Some "history";
             classList := [] |}) /\
  (forall n, In n two_tabs -> in_nav n = true -> section n = false) /\
  getElementById two_tabs "history" = Some 3%nat /\
  thrown (click 1 two_tabs) = false /\
  map classList (doc (click 1 two_tabs)) =
    [[]; ["active"]; ["tab-content"]; ["tab-content"; "active"]].
Proof.
  assert (H2 : forall n, In n two_tabs -> in_nav n = true -> section n = false)
    by (intros n I; apply two_tabs_disjoint; right; exact I).
  split; [reflexivity |].
  destruct (tab_switch two_tabs 1 3
              {| node_id := None; in_nav := true; data_tab := Some "history";
                 classList := [] |}
              {| node_id := Some "history"; in_nav := false; data_tab := None;
                 classList := ["tab-content"] |}
              eq_refl eq_refl H2 eq_refl eq_refl eq_refl) as (T & _ & _).
  split; [exact H2 |]. split; [reflexivity |]. split; [exact T | reflexivity].
Defined.

(** X14.  A link whose tab does not exist.  When the clicked link names
    no element, the listener ends in a TypeError, after it has made the
    clicked link the only active link and has deactivated every tab
    section: the page is left with no section showing. *)
Theorem tab_missing (d : document) (k : nat) (link : node) :
  nth_error d k = Some link -> in_nav link = true ->
  (forall n, In n d -> in_nav n = true -> section n = false) ->
  getElementById d (tab_key link) = None ->
  thrown (click k d) = true /\
  forall j n, nth_error d j = Some n ->
    exists n',
      nth_error (doc (click k d)) j = Some n' /\
      other_classes n' = other_classes n /\
      (in_nav n = true -> (active n' = true <-> j = k)) /\
      (section n = true -> active n' = false) /\
      (in_nav n = false -> section n = false -> n' = n).
Proof.
  intros Hk Nk H2 Ht.
  assert (H3 : forall t' x, getElementById d (tab_key link) = Some t' ->
                            nth_error d t' = Some x -> in_nav x = false)
    by (intros t' x Et'; rewrite Ht in Et'; discriminate).
  split.
  - unfold click. rewrite Hk, Nk.
    destruct (on_click_nth k link d 0) as [_ ->]. rewrite Ht. reflexivity.
  - intros j n Hj.
    destruct (click_elements d k link Hk Nk H2 H3 j n Hj)
      as (n' & E & (_ & _ & _ & F) & A & S & O).
    exists n'. split; [exact E |]. split; [exact F |]. split; [exact A |].
    rewrite Ht in S, O. split.
    + intros SN. destruct (active n') eqn:An; [| reflexivity].
      destruct (S SN) as [C _]. specialize (C eq_refl). discriminate.
    + intros NN SN. apply (O NN SN). discriminate.
Qed.

Lemma tab_missing_witness :
  (nth_error dangling_tab 0 =
     Some {| node_id := None; in_nav := true; data_tab := Some "charts";
             classList := [] |}) /\
  thrown (click 0 dangling_tab) = true /\
  map classList (doc (click 0 dangling_tab)) =
    [["active"]; []; []; ["tab-content"]; ["tab-content"]].
Proof.
  split; [reflexivity |].
  destruct (tab_missing dangling_tab 0
              {| node_id := None; in_nav := true; data_tab := Some "charts";
                 classList := [] |}
              eq_refl eq_refl two_tabs_disjoint eq_refl) as (T & _).
  split; [exact T | reflexivity].
Defined.

(** X15.  Clicking a link twice is the same as clicking it once: the
    second click leaves every element as the first one left it, and ends
    the same way. *)
Theorem click_twice (d : document) (k : nat) :
  click k (doc (click k d)) = click k d.
Proof.
  unfold click at 2 3.
  destruct (nth_error d k) as [link |] eqn:Hk;
    [| cbn [doc]; unfold click; rewrite Hk; reflexivity].
  destruct (in_nav link) eqn:Nk;
    [| cbn [doc]; unfold click; rewrite Hk, Nk; reflexivity].
  set (t := getElementById d (tab_key link)).
  destruct (on_click_nth k link d k) as [Ek Th]. rewrite Hk in Ek. cbn [option_map] in Ek.
  fold t in Ek, Th.
  destruct (settle_frame k t k link) as (_ & F2 & F3 & _).
  unfold click. rewrite Ek, F2, Nk.
  set (link' := settle k t k link) in *.
  assert (K : tab_key link' = tab_key link) by (unfold tab_key; rewrite F3; reflexivity).
  assert (T' : getElementById (doc (on_click k link d)) (tab_key link') = t).
  { rewrite K. apply getElementById_on_click. }
  assert (D : doc (on_click k link' (doc (on_click k link d))) = doc (on_click k link d)).
  { apply nth_error_ext. intros j.
    destruct (on_click_nth k link' (doc (on_click k link d)) j) as [-> _].
    rewrite T'.
    destruct (on_click_nth k link d j) as [-> _]. fold t.
    destruct (nth_error d j) as [n |]; [| reflexivity].
    cbn [option_map]. rewrite settle_twice. reflexivity. }
  destruct (on_click_nth k link' (doc (on_click k link d)) 0) as [_ Th'].
  rewrite T' in Th'.
  destruct (on_click k link' (doc (on_click k link d))) as [d2 th2].
  destruct (on_click k link d) as [d1 th1].
  cbn [doc thrown] in *. subst. reflexivity.
Qed.

End NavFacts.
